(** * The instruction layer of the pycomposer virtual machine

    A shallow embedding of
      - [sa/annotation/vm/instruction.py]: the four instructions [Split],
        [Merge], [Call] and [To] with their [evaluate] methods;
      - [sa/annotated/pandas/annotated.py]: the split types of the Pandas
        annotations ([UniqueSplit], [DataFrameSplit], [SumSplit],
        [GroupBySplit], [SizeSplit]).

    Python objects that the code mutates in place (the context dictionary,
    the [splitter] and [target] attributes of an instruction, a generator)
    are threaded explicitly: every [evaluate] maps a machine state to an
    outcome and a new machine state. *)

From stdpp Require Import gmap strings list fin_maps.
From Stdlib Require Import ZArith Lia Sorted.

Open Scope Z_scope.

#[local] Set Warnings "-clear-no-such-hyp".

(** ** Python values, exceptions and outcomes *)

(** The exceptions that the modelled code raises or lets through. *)
Inductive exn : Type :=
  | KeyError (key : Z)
  | IndexError
  | ValueError (msg : string)
  | TypeError (msg : string)
  | StopIteration
  | PyException (msg : string)
  | UserError (tag : string).

(** A call either returns or raises. *)
Inductive outcome (A : Type) : Type :=
  | Ret (a : A)
  | Raise (e : exn).
Arguments Ret {A} a.
Arguments Raise {A} e.

(** The values that flow through the instructions. A generator object is
    its body, seen as the sequence of what each resumption does, together
    with the position reached and whether it has finished. *)
Inductive pyval : Type :=
  | VNone
  | VInt (n : Z)
  | VStr (s : string)
  | VFrame (rows : list Z)          (* pd.DataFrame or pd.Series *)
  | VCudf (rows : list Z)           (* cudf.DataFrame or cudf.Series *)
  | VArray (a : list Z)             (* np.ndarray of integers *)
  | VOperation (value : pyval)      (* dag.Operation, holding [.value] *)
  | VGenerator (g : generator)
with generator : Type :=
  | Generator (body : nat -> gen_step) (pos : nat) (finished : bool)
with gen_step : Type :=
  | Yield (v : pyval)
  | Return
  | Throw (e : exn).

(** [next(g)]: a finished generator raises [StopIteration] for ever; a
    generator that returns or throws is finished afterwards. *)
Definition next (g : generator) : outcome pyval * generator :=
  match g with
  | Generator body pos true => (Raise StopIteration, g)
  | Generator body pos false =>
      match body pos with
      | Yield v => (Ret v, Generator body (S pos) false)
      | Return => (Raise StopIteration, Generator body pos true)
      | Throw e => (Raise e, Generator body pos true)
      end
  end.

(** [isinstance(result, str) and result == marker] *)
Definition is_marker (marker : string) (result : pyval) : bool :=
  match result with
  | VStr s => bool_decide (s = marker)
  | _ => false
  end.

(** [isinstance(value, Operation)] followed by [value = value.value] *)
Definition unwrap_operation (value : pyval) : pyval :=
  match value with
  | VOperation v => v
  | _ => value
  end.

(** Backends ([sa.annotation.backend.Backend]). *)
Inductive Backend : Type := CPU | GPU.

(** ** The split type interface

    [SplitType] is the abstract base of the strategies; an instruction
    calls [split], [elements] and [to] on it. The methods compute from
    their arguments and return or raise. *)
Record SplitType : Type := {
  st_split : Z -> Z -> pyval -> outcome pyval;
  st_elements : pyval -> outcome (option Z);
  st_to : pyval -> Backend -> outcome pyval
}.

(** ** Machine state *)

(** Code that reads and writes a state [S] and may raise. *)
Definition M (S A : Type) : Type := S -> outcome A * S.

#[global] Instance M_ret {S} : MRet (M S) := fun A a s => (Ret a, s).

#[global] Instance M_bind {S} : MBind (M S) := fun A B k c s =>
  match c s with
  | (Ret a, s') => k a s'
  | (Raise e, s') => (Raise e, s')
  end.

Definition raise {S A} (e : exn) : M S A := fun s => (Raise e, s).

Definition lift {S A} (o : outcome A) : M S A := fun s => (o, s).

Definition get {S} : M S S := fun s => (Ret s, s).

Definition modify {S} (f : S -> S) : M S unit := fun s => (Ret tt, f s).

(** Runs code on a component of the state. *)
Definition zoom {S T A} (proj : T -> S) (upd : S -> T -> T) (c : M S A)
  : M T A :=
  fun t => let '(r, s') := c (proj t) in (r, upd s' t).

(** The context maps a slot id to the stack of values produced for it: a
    Python dictionary of lists. The driver that creates it is outside these
    files, so both flavours of dictionary are covered: on an absent key a
    plain [dict] raises [KeyError] and a [defaultdict(list)] inserts an empty
    list and goes on. *)
Inductive dict_flavour : Type := PlainDict | DefaultDict.

Record context : Type := {
  ctx_flavour : dict_flavour;
  ctx_slots : gmap Z (list pyval)
}.

Definition set_slot (k : Z) (stack : list pyval) (ctx : context) : context :=
  {| ctx_flavour := ctx_flavour ctx;
     ctx_slots := <[k := stack]> (ctx_slots ctx) |}.

(** The stack of a slot as a reader sees it; an absent key has nothing. *)
Definition stack_of (ctx : context) (k : Z) : list pyval :=
  default [] (ctx_slots ctx !! k).

Abbreviation valuemap := (gmap Z pyval).

(** [values[k]] *)
Definition values_get (values : valuemap) (k : Z) : outcome pyval :=
  match values !! k with
  | Some v => Ret v
  | None => Raise (KeyError k)
  end.

(** [context[k]] *)
Definition context_getitem (k : Z) : M context (list pyval) := fun ctx =>
  match ctx_slots ctx !! k with
  | Some stack => (Ret stack, ctx)
  | None =>
      match ctx_flavour ctx with
      | PlainDict => (Raise (KeyError k), ctx)
      | DefaultDict => (Ret [], set_slot k [] ctx)
      end
  end.

(** [context[k][-1]] *)
Definition context_top (k : Z) : M context pyval :=
  stack ← context_getitem k;
  match last stack with
  | Some v => mret v
  | None => raise IndexError
  end.

(** [context[k].append(v)] *)
Definition context_append (k : Z) (v : pyval) : M context unit :=
  stack ← context_getitem k;
  modify (set_slot k (stack ++ [v])).

(** [context[k][-1] = v] *)
Definition context_set_top (k : Z) (v : pyval) : M context unit :=
  stack ← context_getitem k;
  match stack with
  | [] => raise IndexError
  | _ => modify (set_slot k (removelast stack ++ [v]))
  end.

(** ** Split *)

(** What [self.splitter] holds once it is set: the generator returned by
    the first split, or the bound method [self.ty.split]. *)
Inductive splitter : Type :=
  | SplitterGenerator (g : generator)
  | SplitterMethod.

Record Split : Type := {
  split_target : Z;
  split_ty : SplitType;
  split_splitter : option splitter;
  split_backend : Backend;
  split_batch_size : Z
}.

(** [Split(target, ty, backend, batch_size)] *)
Definition Split_init (target : Z) (ty : SplitType) (backend : Backend)
    (batch_size : Z) : Split :=
  {| split_target := target;
     split_ty := ty;
     split_splitter := None;
     split_backend := backend;
     split_batch_size := batch_size |}.

Definition with_splitter (s : splitter) (self : Split) : Split :=
  {| split_target := split_target self;
     split_ty := split_ty self;
     split_splitter := Some s;
     split_backend := split_backend self;
     split_batch_size := split_batch_size self |}.

(** The objects an evaluation of a [Split] reads and writes. *)
Record split_state : Type := {
  ss_self : Split;
  ss_context : context
}.

Definition on_context {A} (c : M context A) : M split_state A :=
  zoom ss_context
       (fun ctx st => {| ss_self := ss_self st; ss_context := ctx |}) c.

(** [self.splitter = s] *)
Definition set_splitter (s : splitter) : M split_state unit :=
  modify (fun st => {| ss_self := with_splitter s (ss_self st);
                       ss_context := ss_context st |}).

(** [next(self.splitter)] for a generator [g] held in [self.splitter]. *)
Definition next_splitter (g : generator) : M split_state pyval :=
  let '(r, g') := next g in
  _ ← set_splitter (SplitterGenerator g');
  lift r.

(** Lines 74-86 of [Split.evaluate]: the result of this call, from the
    memoized splitter or, the first time, from a split that sets it. *)
Definition split_produce (self : Split) (start en : Z) (value : pyval)
  : M split_state pyval :=
  match split_splitter self with
  | None =>
      (* First time - check if the splitter is actually a generator. *)
      result ← lift (st_split (split_ty self) start en value);
      match result with
      | VGenerator g => next_splitter g
      | _ => _ ← set_splitter SplitterMethod; mret result
      end
  | Some (SplitterGenerator g) => next_splitter g
  | Some SplitterMethod => lift (st_split (split_ty self) start en value)
  end.

(** Lines 88-91: the marker is returned, anything else is appended. *)
Definition split_deliver (STOP_ITERATION : string) (self : Split)
    (result : pyval) : M split_state pyval :=
  if is_marker STOP_ITERATION result
  then mret (VStr STOP_ITERATION)
  else
    _ ← on_context (context_append (split_target self) result);
    mret VNone.

(** [Split.evaluate]. [STOP_ITERATION] is the constant of [vm/driver.py]
    that the module imports. The method returns the marker when the result
    is the marker, and [None] after a push. *)
Definition Split_evaluate (STOP_ITERATION : string)
    (thread : nat) (index_range : Z * Z) (batch_index : Z)
    (values : valuemap) : M split_state pyval :=
  st ← get;
  let self := ss_self st in
  let start := 0 + split_batch_size self * batch_index in
  let en := start + split_batch_size self in
  value ← lift (values_get values (split_target self));
  let value := unwrap_operation value in
  value ← lift (st_split (split_ty self)
                  (fst index_range) (snd index_range) value);
  num_elements ← lift (st_elements (split_ty self) value);
  let en := match num_elements with
            | Some n => Z.min en n
            | None => en
            end in
  result ← split_produce self start en value;
  split_deliver STOP_ITERATION self result.

(** One thread evaluating the instruction at a sequence of batch indices,
    as the driver's batch loop does; the outcomes are kept in order. *)
Fixpoint Split_run (STOP_ITERATION : string) (thread : nat)
    (index_range : Z * Z) (values : valuemap) (batches : list Z)
    (st : split_state) : list (outcome pyval) * split_state :=
  match batches with
  | [] => ([], st)
  | b :: batches' =>
      let '(r, st') :=
        Split_evaluate STOP_ITERATION thread index_range b values st in
      let '(rs, st'') :=
        Split_run STOP_ITERATION thread index_range values batches' st' in
      (r :: rs, st'')
  end.

(** ** Merge *)

Record Merge : Type := {
  merge_target : Z;
  merge_ty : SplitType;
  merge_backend : Backend;
  merge_batch_size : Z
}.

Definition Merge_evaluate (self : Merge) (thread : nat)
    (index_range : Z * Z) (batch_index : Z) (values : valuemap)
  : M context pyval :=
  raise (PyException
    "this is not called since the pipeline can only have a single batch size").

(** ** Call *)

(** [dict(pairs)]: later pairs overwrite earlier ones. *)
Definition py_dict (pairs : list (string * pyval)) : gmap string pyval :=
  fold_left (fun d p => <[fst p := snd p]> d) pairs ∅.

(** A list comprehension whose element expression acts on the state and
    can raise: the first failure ends it. *)
Fixpoint comprehension {S A B} (f : A -> M S B) (l : list A)
  : M S (list B) :=
  match l with
  | [] => mret []
  | a :: l' =>
      b ← f a;
      bs ← comprehension f l';
      mret (b :: bs)
  end.

Section CallInstruction.

(** What the called function can act on outside the machine. *)
Context {W : Type}.

(** A Python callable applied to positional and keyword arguments. *)
Definition pyfunc : Type :=
  list pyval -> gmap string pyval -> M W pyval.

Record Call : Type := {
  call_target : option Z;
  call_func : pyfunc;
  call_args : list Z;
  (* [self.kwargs.items()], in insertion order *)
  call_kwargs : list (string * Z);
  call_ty : SplitType;
  call_backend : Backend;
  call_batch_size : Z
}.

Definition get_args (self : Call) : M context (list pyval) :=
  comprehension (fun target => context_top target) (call_args self).

Definition get_kwargs (self : Call) : M context (gmap string pyval) :=
  pairs ← comprehension
             (fun '(name, target) =>
                v ← context_top target; mret (name, v))
             (call_kwargs self);
  mret (py_dict pairs).

(** The context of the thread and the world outside. *)
Definition call_state : Type := context * W.

Definition in_context {A} (c : M context A) : M call_state A :=
  zoom fst (fun ctx st => (ctx, snd st)) c.

Definition in_world {A} (c : M W A) : M call_state A :=
  zoom snd (fun w st => (fst st, w)) c.

Definition Call_evaluate (self : Call) (thread : nat)
    (index_range : Z * Z) (batch_index : Z) (values : valuemap)
  : M call_state pyval :=
  args ← in_context (get_args self);
  kwargs ← in_context (get_kwargs self);
  result ← in_world (call_func self args kwargs);
  match call_target self with
  | Some target =>
      _ ← in_context (context_append target result);
      mret VNone
  | None => mret VNone
  end.

Definition remove_target (self : Call) : Call :=
  {| call_target := None;
     call_func := call_func self;
     call_args := call_args self;
     call_kwargs := call_kwargs self;
     call_ty := call_ty self;
     call_backend := call_backend self;
     call_batch_size := call_batch_size self |}.

(** The methods of [Call] that a holder of the instruction can invoke
    once it is built, and a run of such invocations by one thread.
    [__str__] only reads the instruction. *)
Inductive call_op : Type :=
  | OpStr
  | OpGetArgs
  | OpGetKwargs
  | OpEvaluate (thread : nat) (index_range : Z * Z) (batch_index : Z)
      (values : valuemap)
  | OpRemoveTarget.

Definition call_step (op : call_op) (st : Call * call_state)
  : Call * call_state :=
  let '(self, cs) := st in
  match op with
  | OpStr => st
  | OpGetArgs => (self, ((get_args self (fst cs)).2, snd cs))
  | OpGetKwargs => (self, ((get_kwargs self (fst cs)).2, snd cs))
  | OpEvaluate thread index_range batch_index values =>
      (self,
       (Call_evaluate self thread index_range batch_index values cs).2)
  | OpRemoveTarget => (remove_target self, cs)
  end.

Definition call_run (ops : list call_op) (st : Call * call_state)
  : Call * call_state :=
  fold_left (fun st op => call_step op st) ops st.

End CallInstruction.

Arguments pyfunc W : clear implicits.
Arguments Call W : clear implicits.
Arguments call_state W : clear implicits.

(** ** To *)

Record To : Type := {
  to_target : Z;
  to_ty : SplitType;
  to_backend : Backend
}.

Definition To_evaluate (self : To) (thread : nat) (index_range : Z * Z)
    (batch_index : Z) (values : valuemap) : M context pyval :=
  old_value ← context_top (to_target self);
  new_value ← lift (st_to (to_ty self) old_value (to_backend self));
  _ ← context_set_top (to_target self) new_value;
  mret VNone.

(** ** The split types of the Pandas annotations *)

(** [seq[start:end]] for a Python sequence: a negative bound counts from
    the end, and both bounds are clamped to the sequence. *)
Definition slice_bound (len i : Z) : Z :=
  if i <? 0 then Z.max (i + len) 0 else Z.min i len.

Definition py_slice {A} (l : list A) (start en : Z) : list A :=
  let len := Z.of_nat (length l) in
  let s := slice_bound len start in
  let e := slice_bound len en in
  take (Z.to_nat (e - s)) (drop (Z.to_nat s) l).

(** [np.unique] on a one-dimensional integer array: its sorted unique
    elements, built by ordered insertion. [np.concatenate] on a list of
    such arrays is their concatenation. *)
Fixpoint insert_unique (x : Z) (l : list Z) : list Z :=
  match l with
  | [] => [x]
  | y :: l' =>
      if x <? y then x :: l
      else if x =? y then l
      else y :: insert_unique x l'
  end.

Definition np_unique (a : list Z) : list Z := foldr insert_unique [] a.

Definition np_concatenate (arrays : list (list Z)) : list Z := concat arrays.

(** [pd.concat] on a list of objects: [None] entries are dropped, the
    frames that are left are stacked in order; nothing to concatenate is a
    [ValueError] and an object that is not a frame a [TypeError] (whose
    message, which in pandas also names the type of the object, is
    shortened). *)
Definition is_none (value : pyval) : bool :=
  match value with
  | VNone => true
  | _ => false
  end.

Fixpoint stack_rows (objs : list pyval) : outcome (list Z) :=
  match objs with
  | [] => Ret []
  | VFrame rows :: objs' =>
      match stack_rows objs' with
      | Ret rest => Ret (rows ++ rest)
      | Raise e => Raise e
      end
  | _ :: _ =>
      Raise (TypeError
        "cannot concatenate object; only Series and DataFrame objs are valid")
  end.

Definition pd_concat (objs : list pyval) : outcome pyval :=
  match objs with
  | [] => Raise (ValueError "No objects to concatenate")
  | _ =>
      match List.filter (fun obj => negb (is_none obj)) objs with
      | [] => Raise (ValueError "All objects passed were None")
      | kept =>
          match stack_rows kept with
          | Ret rows => Ret (VFrame rows)
          | Raise e => Raise e
          end
      end
  end.

(** Integer data has numpy's dtype [int64]: an addition whose result leaves
    the range from [-2**63] to [2**63 - 1] wraps around (two's
    complement), in an array reduction as between two scalars. *)
Definition wrap_int64 (z : Z) : Z := (z + 2 ^ 63) mod 2 ^ 64 - 2 ^ 63.

Definition int64_add (x y : Z) : Z := wrap_int64 (x + y).

(** [series.sum()] and [series.unique()] on a series of dtype [int64]: the
    rows added up in [int64], and the distinct rows in the order in which
    they first appear. *)
Definition series_sum (rows : list Z) : Z := foldr int64_add 0 rows.

Definition series_unique (rows : list Z) : list Z :=
  fold_left (fun seen x => if decide (x ∈ seen) then seen else seen ++ [x])
            rows [].

(** [sum(values)] on a list of [int64] scalars, as [series.sum()] returns
    them: added up from [0], left to right, each addition in [int64]. *)
Definition py_sum (values : list Z) : Z := fold_left int64_add values 0.

Module UniqueSplit.

Definition combine (values : list (list Z)) : list Z :=
  if (0 <? Z.of_nat (length values))
  then np_unique (np_concatenate values)
  else [].

(** [split(self, values)] takes one argument. *)
Definition split (values : pyval) : outcome pyval := Raise (ValueError "").

End UniqueSplit.

Module DataFrameSplit.

(** What [combine] does: it returns the concatenation; or it falls off
    its end and returns [None]; or it raises, from [pd.concat], from the
    assertion on [original], or from the assignment [original.data = result],
    where numpy refuses a frame as the buffer of an array. *)
Inductive combine_outcome : Type :=
  | Combined (result : pyval)
  | NotCombined
  | ConcatFailed (e : exn)
  | AssertionFailed
  | AssignmentFailed.

Definition combine (values : list pyval) (original : pyval)
  : combine_outcome :=
  let do_combine :=
    fold_left (fun do_combine val =>
                 if negb (is_none val) then true else do_combine)
              values false in
  if do_combine && (0 <? Z.of_nat (length values))
  then
    match pd_concat values with
    | Raise e => ConcatFailed e
    | Ret result =>
        match original with
        | VNone => Combined result
        | VArray _ => AssignmentFailed
        | _ => AssertionFailed
        end
    end
  else NotCombined.

Definition split (start en : Z) (value : pyval) : outcome pyval :=
  match value with
  | VFrame rows => Ret (VFrame (py_slice rows start en))
  | _ => Ret value
  end.

Definition elements (value : pyval) : outcome (option Z) :=
  match value with
  | VFrame rows => Ret (Some (Z.of_nat (length rows)))
  | _ => Ret None
  end.

Definition to_device (value : pyval) : pyval :=
  match value with
  | VFrame rows => VCudf rows
  | _ => value
  end.

Definition to_host (value : pyval) : pyval :=
  match value with
  | VCudf rows => VFrame rows
  | _ => value
  end.

(** The class as a split type; [to] is inherited from [SplitType], which
    lives in [sa/annotation/split_types.py], and is taken as given. *)
Definition ty (to : pyval -> Backend -> outcome pyval) : SplitType :=
  {| st_split := split; st_elements := elements; st_to := to |}.

End DataFrameSplit.

Module SumSplit.

Definition split (start en : Z) (value : pyval) : outcome pyval :=
  Raise (ValueError "can't split sum values").

Definition to_device (value : pyval) : pyval := value.
Definition to_host (value : pyval) : pyval := value.

Definition combine (values : list Z) : Z := py_sum values.

End SumSplit.

Module GroupBySplit.

Definition combine (values : list pyval) : pyval := VNone.

Definition split (start en : Z) (value : pyval) : outcome pyval :=
  Raise (ValueError "can't split groupby values").

End GroupBySplit.

Module SizeSplit.

Definition combine (values : list pyval) : outcome pyval := pd_concat values.

Definition split (start en : Z) (value : pyval) : outcome pyval :=
  Raise (ValueError "can't split size values").

End SizeSplit.

(** The annotated functions, as the functions they wrap. *)
Module Annotated.

Definition pandasum (series : list Z) : Z := series_sum series.

Definition unique (series : list Z) : list Z := series_unique series.

End Annotated.

(** The error that a refusing strategy raises. *)
Definition UnsupportedOperation (e : exn) : Prop :=
  exists msg, e = ValueError msg.

(** ** Vocabulary of the statements *)

(** The top of a slot, when it has one. *)
Definition top_of (ctx : context) (k : Z) : option pyval :=
  last (stack_of ctx k).

(** A slot is non-empty when its key is bound to a stack with an entry. *)
Definition slot_nonempty (ctx : context) (k : Z) : Prop :=
  exists stack, ctx_slots ctx !! k = Some stack /\ stack <> [].

(** A slot can be pushed to when the dictionary has, or makes, its stack. *)
Definition slot_usable (ctx : context) (k : Z) : Prop :=
  ctx_flavour ctx = DefaultDict \/ is_Some (ctx_slots ctx !! k).

(** Two contexts that show the same stack in every slot. *)
Definition same_stacks (ctx ctx' : context) : Prop :=
  forall k, stack_of ctx' k = stack_of ctx k.

(** The batch window in the words of the protocol: batch [b] of size [s]
    starts at [s*b] and ends [s] further, or at the element count of the
    shard when that is smaller. *)
Definition batch_window (s b : Z) (count : option Z) : Z * Z :=
  let start := s * b in
  let en := start + s in
  (start, match count with
          | Some n => Z.min en n
          | None => en
          end).

(** The value that the narrowing receives, in the words of the protocol: a
    graph node stands for the value it holds, any other value for
    itself. *)
Inductive node_value : pyval -> pyval -> Prop :=
  | node_value_held (held : pyval) : node_value (VOperation held) held
  | node_value_self (v : pyval) :
      (forall held, v <> VOperation held) -> node_value v v.

(** The last part of C2 as the specification states it: a data value is
    never taken for the marker. A value of the values map that the split
    type hands through unchanged and does not measure, as
    [DataFrameSplit.split] does with a constant, is such a data value; the
    evaluation must not report exhaustion for it. *)
Definition data_never_mistaken (STOP_ITERATION : string) : Prop :=
  forall (self : Split) (thread : nat) (index_range : Z * Z)
         (batch_index : Z) (values : valuemap) (ctx : context)
         (data : pyval),
    values !! split_target self = Some data ->
    unwrap_operation data = data ->
    (forall start en, st_split (split_ty self) start en data = Ret data) ->
    st_elements (split_ty self) data = Ret None ->
    (Split_evaluate STOP_ITERATION thread index_range batch_index values
       {| ss_self := self; ss_context := ctx |}).1
    <> Ret (VStr STOP_ITERATION).

(** The inherited [to] used in the examples: a transfer to the device. *)
Definition to_device_only (ty_to_device : pyval -> pyval)
  : pyval -> Backend -> outcome pyval :=
  fun value _ => Ret (ty_to_device value).

(** C6 as the specification states it: once an evaluation has returned the
    marker, an evaluation that the same thread makes afterwards, on the same
    shard and values and at a batch index that is not smaller, returns the
    marker too. *)
Definition exhaustion_monotone (STOP_ITERATION : string) : Prop :=
  forall (self : Split) (thread : nat) (index_range : Z * Z)
         (values : valuemap) (ctx : context) (b b' : Z) (st' : split_state),
    b <= b' ->
    Split_evaluate STOP_ITERATION thread index_range b values
      {| ss_self := self; ss_context := ctx |}
    = (Ret (VStr STOP_ITERATION), st') ->
    (Split_evaluate STOP_ITERATION thread index_range b' values st').1
    = Ret (VStr STOP_ITERATION).

(** A generator function that yields the given items and returns. *)
Definition generator_of (items : list pyval) : generator :=
  Generator (fun n => match items !! n with
                      | Some v => Yield v
                      | None => Return
                      end) 0 false.

(** A lazy split type: an array is split into a generator of its elements
    that ends with the marker; anything else, the generator included, is
    handed through. *)
Definition lazy_elements (STOP_ITERATION : string) : SplitType :=
  {| st_split := fun _ _ value =>
       match value with
       | VArray a =>
           Ret (VGenerator
                  (generator_of (map VInt a ++ [VStr STOP_ITERATION])))
       | _ => Ret value
       end;
     st_elements := fun _ => Ret None;
     st_to := fun value _ => Ret value |}.

(** A generator that, once it has yielded the marker, yields it at every
    later resumption. *)
Definition absorbing_generator (STOP_ITERATION : string) (g : generator)
  : Prop :=
  match g with
  | Generator body _ _ =>
      forall n m : nat,
        (n <= m)%nat ->
        body n = Yield (VStr STOP_ITERATION) ->
        body m = Yield (VStr STOP_ITERATION)
  end.

(** A split type that is absorbing on a shard: once its [split] has
    returned the marker for a window of the shard, it returns it for every
    window of the shard that starts no earlier, and the generators that it
    returns for the shard are absorbing. *)
Definition absorbing_on (STOP_ITERATION : string) (ty : SplitType)
    (shard : pyval) : Prop :=
  (forall start en start' en',
     start <= start' ->
     st_split ty start en shard = Ret (VStr STOP_ITERATION) ->
     st_split ty start' en' shard = Ret (VStr STOP_ITERATION))
  /\ (forall start en g,
        st_split ty start en shard = Ret (VGenerator g) ->
        absorbing_generator STOP_ITERATION g).

(** The generator that an instruction holds, if any, is absorbing. *)
Definition absorbing_memo (STOP_ITERATION : string) (self : Split) : Prop :=
  match split_splitter self with
  | Some (SplitterGenerator g) => absorbing_generator STOP_ITERATION g
  | _ => True
  end.

(** An instruction [self'] that descends from [self] and whose splitter can
    only give the marker from batch [b] of the shard on: the bound [split]
    returned the marker for the window of [b], or the generator held has
    nothing but the marker left to yield. *)
Definition exhausted (STOP_ITERATION : string) (self : Split)
    (shard : pyval) (b : Z) (self' : Split) : Prop :=
  split_target self' = split_target self
  /\ split_ty self' = split_ty self
  /\ split_batch_size self' = split_batch_size self
  /\ match split_splitter self' with
     | Some SplitterMethod =>
         exists en,
           st_split (split_ty self) (split_batch_size self * b) en shard
           = Ret (VStr STOP_ITERATION)
     | Some (SplitterGenerator (Generator body pos finished)) =>
         finished = false
         /\ forall m : nat,
              (pos <= m)%nat -> body m = Yield (VStr STOP_ITERATION)
     | None => False
     end.

(** ** Sample instructions and inputs *)

(** An eager split type for integer arrays that checks the bounds of the
    window: a window that starts at or after the end of the array gives the
    marker, any other the slice. *)
Definition bounded_array (STOP_ITERATION : string) : SplitType :=
  {| st_split := fun start en value =>
       match value with
       | VArray a =>
           if Z.of_nat (length a) <=? start
           then Ret (VStr STOP_ITERATION)
           else Ret (VArray (py_slice a start en))
       | _ => Raise (TypeError "not an array")
       end;
     st_elements := fun value =>
       match value with
       | VArray a => Ret (Some (Z.of_nat (length a)))
       | _ => Ret None
       end;
     st_to := fun value _ => Ret value |}.

Definition example_frames : SplitType :=
  DataFrameSplit.ty (to_device_only DataFrameSplit.to_device).

Definition example_split : Split := Split_init 0 example_frames CPU 2.

Definition example_values : valuemap := {[0 := VFrame [1; 2; 3]]}.

(** The same frame held by a graph node, and a string constant. *)
Definition example_node_values : valuemap :=
  {[0 := VOperation (VFrame [1; 2; 3])]}.

Definition example_constant : valuemap := {[0 := VStr "stop"]}.

Definition example_context : context :=
  {| ctx_flavour := PlainDict; ctx_slots := {[0 := []]} |}.

Definition example_arrays : valuemap := {[0 := VArray [1; 2; 3]]}.

(** A function that adds its arguments and counts its calls in the world. *)
Definition add_and_count : pyfunc nat :=
  fun args kwargs calls =>
    match args, kwargs !! "value" with
    | [VInt x], Some (VInt y) => (Ret (VInt (x + y)), S calls)
    | _, _ => (Raise (TypeError "unsupported operand"), S calls)
    end.

Definition example_call : Call nat :=
  {| call_target := Some 2;
     call_func := add_and_count;
     call_args := [0];
     call_kwargs := [("value", 1)];
     call_ty := example_frames;
     call_backend := CPU;
     call_batch_size := 2 |}.

Definition example_call_context : context :=
  {| ctx_flavour := PlainDict;
     ctx_slots := {[0 := [VInt 1; VInt 40]; 1 := [VInt 2]; 2 := []]} |}.

Definition example_to : To :=
  {| to_target := 1; to_ty := example_frames; to_backend := GPU |}.

Definition example_to_context : context :=
  {| ctx_flavour := PlainDict;
     ctx_slots := {[1 := [VFrame [1; 2]; VFrame [3; 4]]]} |}.

(** * Properties *)

(** ** Running monadic code *)

Lemma bind_run {S A B} (c : M S A) (k : A -> M S B) (s : S) :
  (c ≫= k) s =
  match c s with
  | (Ret a, s') => k a s'
  | (Raise e, s') => (Raise e, s')
  end.
Proof. reflexivity. Qed.

Lemma bind_ret {S A B} (c : M S A) (k : A -> M S B) (s s' : S) (a : A) :
  c s = (Ret a, s') -> (c ≫= k) s = k a s'.
Proof. intros H. rewrite bind_run, H. reflexivity. Qed.

Lemma bind_raise {S A B} (c : M S A) (k : A -> M S B) (s s' : S) (e : exn) :
  c s = (Raise e, s') -> (c ≫= k) s = (Raise e, s').
Proof. intros H. rewrite bind_run, H. reflexivity. Qed.

Lemma zoom_run {S T A} (proj : T -> S) (upd : S -> T -> T) (c : M S A) t :
  zoom proj upd c t = ((c (proj t)).1, upd (c (proj t)).2 t).
Proof. unfold zoom. destruct (c (proj t)); reflexivity. Qed.

(** ** Merge *)

(** C4: evaluating a [Merge] raises for every thread, index range, batch
    index, values map and context; it never returns, and the context is
    the one it was given. *)
Theorem Merge_evaluate_raises (self : Merge) (thread : nat)
    (index_range : Z * Z) (batch_index : Z) (values : valuemap)
    (ctx : context) :
  (exists e,
     Merge_evaluate self thread index_range batch_index values ctx
     = (Raise e, ctx))
  /\ (forall v ctx',
        Merge_evaluate self thread index_range batch_index values ctx
        <> (Ret v, ctx')).
Proof.
  split.
  - eexists. reflexivity.
  - intros v ctx'. unfold Merge_evaluate, raise. discriminate.
Qed.

(** ** Split types that refuse to split *)

(** C7: the strategies of the Pandas annotations that forbid partitioning
    (sums, group-by handles and sizes) raise [ValueError] from [split]
    whatever window and value they are given. *)
Theorem forbidding_split_raises :
  forall (split : Z -> Z -> pyval -> outcome pyval),
    In split [SumSplit.split; GroupBySplit.split; SizeSplit.split] ->
    forall (start en : Z) (value : pyval),
      exists e, split start en value = Raise e /\ UnsupportedOperation e.
Proof.
  intros split Hin start en value.
  simpl in Hin.
  destruct Hin as [<- | [<- | [<- | []]]];
    (eexists; split; [reflexivity | eexists; reflexivity]).
Qed.

(** [UniqueSplit.split], which takes the value alone, refuses as well. *)
Lemma UniqueSplit_split_raises (values : pyval) :
  exists e, UniqueSplit.split values = Raise e /\ UnsupportedOperation e.
Proof. eexists. split; [reflexivity | eexists; reflexivity]. Qed.

Lemma forbidding_split_raises_witness :
  exists e, SumSplit.split 0 2 (VInt 10) = Raise e /\ UnsupportedOperation e.
Proof.
  apply (forbidding_split_raises SumSplit.split).
  simpl. left. reflexivity.
Defined.

(** ** UniqueSplit.combine *)

Lemma elem_of_insert_unique (x y : Z) (l : list Z) :
  y ∈ insert_unique x l <-> y = x \/ y ∈ l.
Proof.
  induction l as [| z l IH]; simpl.
  - rewrite list_elem_of_singleton, elem_of_nil. tauto.
  - destruct (Z.ltb_spec x z) as [Hlt | Hge].
    + rewrite (elem_of_cons (z :: l)). reflexivity.
    + destruct (Z.eqb_spec x z) as [-> | Hne].
      * rewrite elem_of_cons. intuition.
      * rewrite !elem_of_cons, IH. intuition.
Qed.

Lemma insert_unique_sorted (x : Z) (l : list Z) :
  StronglySorted Z.lt l -> StronglySorted Z.lt (insert_unique x l).
Proof.
  induction 1 as [| z l Hs IH Hz]; simpl.
  - repeat constructor.
  - destruct (Z.ltb_spec x z) as [Hlt | Hge].
    + constructor; [constructor; assumption |].
      constructor; [assumption |].
      eapply List.Forall_impl; [| exact Hz]. simpl. intros; lia.
    + destruct (Z.eqb_spec x z) as [-> | Hne].
      * constructor; assumption.
      * constructor; [assumption |].
        apply List.Forall_forall. intros y Hy.
        apply list_elem_of_In, elem_of_insert_unique in Hy.
        destruct Hy as [-> | Hy]; [lia |].
        rewrite List.Forall_forall in Hz. apply Hz.
        apply list_elem_of_In. exact Hy.
Qed.

Lemma np_unique_sorted (a : list Z) : StronglySorted Z.lt (np_unique a).
Proof.
  induction a as [| x a IH]; simpl.
  - constructor.
  - apply insert_unique_sorted, IH.
Qed.

Lemma elem_of_np_unique (x : Z) (a : list Z) : x ∈ np_unique a <-> x ∈ a.
Proof.
  induction a as [| y a IH]; simpl.
  - reflexivity.
  - rewrite elem_of_insert_unique, elem_of_cons, IH. reflexivity.
Qed.


(** ** The context *)

Lemma stack_of_set_slot (ctx : context) (k j : Z) (stack : list pyval) :
  stack_of (set_slot k stack ctx) j
  = if decide (k = j) then stack else stack_of ctx j.
Proof.
  unfold stack_of, set_slot; simpl.
  rewrite lookup_insert. destruct (decide (k = j)); reflexivity.
Qed.

Lemma set_slot_set_slot (ctx : context) (k : Z) (s1 s2 : list pyval) :
  set_slot k s2 (set_slot k s1 ctx) = set_slot k s2 ctx.
Proof.
  unfold set_slot; simpl. f_equal. apply insert_insert_eq.
Qed.

Lemma context_getitem_bound (ctx : context) (k : Z) (stack : list pyval) :
  ctx_slots ctx !! k = Some stack ->
  context_getitem k ctx = (Ret stack, ctx).
Proof. intros H. unfold context_getitem. rewrite H. reflexivity. Qed.

(** Whatever [context[k]] does, no slot shows a different stack after. *)
Lemma context_getitem_same_stacks (ctx : context) (k : Z) :
  same_stacks ctx (context_getitem k ctx).2.
Proof.
  intros j. unfold context_getitem.
  destruct (ctx_slots ctx !! k) as [stack |] eqn:Hk; [reflexivity |].
  destruct (ctx_flavour ctx); [reflexivity |]. simpl.
  rewrite stack_of_set_slot. destruct (decide (k = j)) as [<- |]; [| done].
  unfold stack_of. rewrite Hk. reflexivity.
Qed.

Lemma context_getitem_returns (ctx ctx' : context) (k : Z)
    (stack : list pyval) :
  context_getitem k ctx = (Ret stack, ctx') -> stack = stack_of ctx k.
Proof.
  unfold context_getitem, stack_of.
  destruct (ctx_slots ctx !! k) as [s |]; simpl; [congruence |].
  destruct (ctx_flavour ctx); simpl; congruence.
Qed.

Lemma context_top_nonempty (ctx : context) (k : Z) :
  slot_nonempty ctx k ->
  exists v, top_of ctx k = Some v /\ context_top k ctx = (Ret v, ctx).
Proof.
  intros (stack & Hk & Hne).
  destruct (last stack) as [v |] eqn:Hlast.
  - exists v. unfold top_of, stack_of, context_top. rewrite Hk; simpl.
    split; [exact Hlast |].
    rewrite (bind_ret _ _ _ _ _ (context_getitem_bound _ _ _ Hk)).
    rewrite Hlast. reflexivity.
  - apply last_None in Hlast. contradiction.
Qed.

Lemma context_top_same_stacks (ctx : context) (k : Z) :
  same_stacks ctx (context_top k ctx).2.
Proof.
  unfold context_top. rewrite bind_run.
  pose proof (context_getitem_same_stacks ctx k) as Hs.
  destruct (context_getitem k ctx) as [[stack | e] ctx']; simpl in *.
  - destruct (last stack); exact Hs.
  - exact Hs.
Qed.

Lemma context_append_usable (ctx : context) (k : Z) (v : pyval) :
  slot_usable ctx k ->
  context_append k v ctx = (Ret tt, set_slot k (stack_of ctx k ++ [v]) ctx).
Proof.
  intros Hu. unfold context_append, context_getitem, stack_of.
  rewrite bind_run.
  destruct (ctx_slots ctx !! k) as [stack |] eqn:Hk; [reflexivity |].
  destruct Hu as [Hf | [s Hs]]; [| rewrite Hk in Hs; discriminate].
  rewrite Hf. unfold modify. simpl. rewrite set_slot_set_slot. reflexivity.
Qed.

(** ** To *)

(** C8: when the target slot is non-empty, [To.evaluate] reads its top,
    converts it with the split type's [to] for the instruction's backend and
    overwrites the top with the converted value; if [to] raises, the context
    is left as it was. Either way the depth of the target slot is the same
    before and after, and no other slot changes. *)
Theorem To_evaluate_replaces_top (self : To) (thread : nat)
    (index_range : Z * Z) (batch_index : Z) (values : valuemap)
    (ctx : context) (stack : list pyval) (old_value : pyval) :
  ctx_slots ctx !! to_target self = Some stack ->
  last stack = Some old_value ->
  let run := To_evaluate self thread index_range batch_index values ctx in
  run = match st_to (to_ty self) old_value (to_backend self) with
        | Ret new_value =>
            (Ret VNone,
             set_slot (to_target self) (removelast stack ++ [new_value]) ctx)
        | Raise e => (Raise e, ctx)
        end
  /\ length (stack_of run.2 (to_target self)) = length stack
  /\ (forall k, k <> to_target self ->
        ctx_slots run.2 !! k = ctx_slots ctx !! k)
  /\ ctx_flavour run.2 = ctx_flavour ctx.
Proof.
  intros Hk Hlast run.
  assert (Hrun : run = match st_to (to_ty self) old_value (to_backend self)
                       with
                       | Ret new_value =>
                           (Ret VNone,
                            set_slot (to_target self)
                              (removelast stack ++ [new_value]) ctx)
                       | Raise e => (Raise e, ctx)
                       end).
  { subst run. unfold To_evaluate, context_top, context_set_top.
    rewrite !bind_run, (context_getitem_bound _ _ _ Hk), Hlast.
    unfold mret, M_ret, lift.
    destruct (st_to (to_ty self) old_value (to_backend self))
      as [new_value | e]; [| reflexivity].
    rewrite !bind_run, (context_getitem_bound _ _ _ Hk).
    destruct stack as [| x stack']; [discriminate | reflexivity]. }
  split; [exact Hrun |].
  rewrite Hrun.
  destruct (st_to (to_ty self) old_value (to_backend self))
    as [new_value | e]; simpl.
  - split; [| split; [| reflexivity]].
    + rewrite stack_of_set_slot, decide_True by reflexivity.
      rewrite length_app; simpl.
      destruct stack as [| x stack'] using rev_ind; [discriminate |].
      rewrite removelast_last, length_app. reflexivity.
    + intros k Hne. apply lookup_insert_ne. congruence.
  - split; [| split; [| reflexivity]].
    + unfold stack_of. rewrite Hk. reflexivity.
    + reflexivity.
Qed.

(** ** Call *)

Lemma in_context_run {W A} (c : M context A) (ctx ctx' : context) (w : W)
    (r : outcome A) :
  c ctx = (r, ctx') -> in_context c (ctx, w) = (r, (ctx', w)).
Proof. intros H. unfold in_context, zoom; simpl. rewrite H. reflexivity. Qed.

Lemma in_world_run {W A} (c : M W A) (ctx : context) (w w' : W)
    (r : outcome A) :
  c w = (r, w') -> in_world c (ctx, w) = (r, (ctx, w')).
Proof. intros H. unfold in_world, zoom; simpl. rewrite H. reflexivity. Qed.

Lemma comprehension_top (ctx : context) (targets : list Z) :
  Forall (slot_nonempty ctx) targets ->
  exists args,
    Forall2 (fun t v => top_of ctx t = Some v) targets args
    /\ comprehension (fun target => context_top target) targets ctx
       = (Ret args, ctx).
Proof.
  induction 1 as [| t targets Ht _ IH]; simpl.
  - exists []. split; [constructor | reflexivity].
  - destruct IH as (args & Hargs & Hrun).
    destruct (context_top_nonempty ctx t Ht) as (v & Hv & Htop).
    exists (v :: args). split; [constructor; assumption |].
    rewrite (bind_ret _ _ _ _ _ Htop), (bind_ret _ _ _ _ _ Hrun).
    reflexivity.
Qed.

Lemma comprehension_kwtop (ctx : context) (kws : list (string * Z)) :
  Forall (slot_nonempty ctx) kws.*2 ->
  exists pairs,
    Forall2 (fun kw p => kw.1 = p.1 /\ top_of ctx kw.2 = Some p.2) kws pairs
    /\ comprehension
         (fun '(name, target) =>
            v ← context_top target; mret (name, v)) kws ctx
       = (Ret pairs, ctx).
Proof.
  induction kws as [| [name t] kws IH]; simpl; intros Hall.
  - exists []. split; [constructor | reflexivity].
  - apply Forall_cons in Hall as [Ht Hall].
    destruct (IH Hall) as (pairs & Hpairs & Hrun).
    destruct (context_top_nonempty ctx t Ht) as (v & Hv & Htop).
    exists ((name, v) :: pairs). split.
    + constructor; [split; [reflexivity | exact Hv] | exact Hpairs].
    + rewrite !bind_run, Htop. unfold mret at 1, M_ret at 1.
      rewrite (bind_ret _ _ _ _ _ Hrun). reflexivity.
Qed.

Lemma fold_insert_lookup (pairs : list (string * pyval))
    (m : gmap string pyval) (k : string) (v : pyval) :
  NoDup pairs.*1 ->
  (fold_left (fun d p => <[fst p := snd p]> d) pairs m) !! k = Some v
  <-> (k, v) ∈ pairs \/ ((k ∉ pairs.*1) /\ m !! k = Some v).
Proof.
  revert m. induction pairs as [| [k0 v0] pairs IH]; intros m Hnd;
    rewrite ?fmap_cons in *; simpl in *.
  - rewrite elem_of_nil. pose proof (not_elem_of_nil k). tauto.
  - apply NoDup_cons in Hnd as [Hk0 Hnd].
    rewrite (IH _ Hnd), lookup_insert, !elem_of_cons.
    assert (Hfst : forall x, (k0, x) ∈ pairs -> False).
    { intros x Hin. apply Hk0, list_elem_of_fmap.
      exists (k0, x). split; [reflexivity | exact Hin]. }
    destruct (decide (k0 = k)) as [<- | Hne]; naive_solver.
Qed.

Lemma py_dict_lookup (pairs : list (string * pyval)) (k : string)
    (v : pyval) :
  NoDup pairs.*1 -> (py_dict pairs !! k = Some v <-> (k, v) ∈ pairs).
Proof.
  intros Hnd. unfold py_dict. rewrite (fold_insert_lookup _ _ _ _ Hnd).
  rewrite lookup_empty. split; [intros [H | [_ [=]]]; exact H | auto].
Qed.

Lemma kwtop_pairs (ctx : context) (kws : list (string * Z))
    (pairs : list (string * pyval)) :
  Forall2 (fun kw p => kw.1 = p.1 /\ top_of ctx kw.2 = Some p.2) kws pairs ->
  kws.*1 = pairs.*1
  /\ (forall k v, (k, v) ∈ pairs
                  <-> exists t, (k, t) ∈ kws /\ top_of ctx t = Some v).
Proof.
  induction 1 as [| [n t] [n' v'] kws pairs [Hn Ht] _ [IH1 IH2]];
    simpl in *.
  - split; [reflexivity |]. intros k v. rewrite elem_of_nil.
    split; [intros [] | intros (t & Hin & _)].
    apply elem_of_nil in Hin. exact Hin.
  - subst n'. split; [f_equal; exact IH1 |].
    intros k v. rewrite elem_of_cons, IH2. split.
    + intros [[= -> ->] | (t0 & Hin & Htop)].
      * exists t. split; [left | exact Ht].
      * exists t0. split; [right; exact Hin | exact Htop].
    + intros (t0 & Hin & Htop). apply elem_of_cons in Hin.
      destruct Hin as [[= -> ->] | Hin].
      * left. f_equal. congruence.
      * right. exists t0. split; assumption.
Qed.

(** C5: when every argument slot and keyword-argument slot is non-empty,
    [Call.evaluate] calls the function on the tops of the argument slots, in
    the declared order, and on the mapping from each keyword to the top of
    its slot. If the function returns, its value is appended to the target
    slot when the instruction has a target; without a target the context is
    the one given, the value is dropped, and only the function's effect on
    the world remains. If the function raises, the context is the one
    given. *)
Theorem Call_evaluate_spec {W : Type} (self : Call W) (thread : nat)
    (index_range : Z * Z) (batch_index : Z) (values : valuemap)
    (ctx : context) (w : W) :
  Forall (slot_nonempty ctx) (call_args self) ->
  Forall (slot_nonempty ctx) (call_kwargs self).*2 ->
  NoDup (call_kwargs self).*1 ->
  (forall t, call_target self = Some t -> slot_usable ctx t) ->
  exists (args : list pyval) (kwargs : gmap string pyval),
    Forall2 (fun t v => top_of ctx t = Some v) (call_args self) args
    /\ (forall name v,
          kwargs !! name = Some v
          <-> exists t, (name, t) ∈ call_kwargs self
                        /\ top_of ctx t = Some v)
    /\ Call_evaluate self thread index_range batch_index values (ctx, w)
       = match call_func self args kwargs w with
         | (Ret result, w') =>
             (Ret VNone,
              (match call_target self with
               | Some t => set_slot t (stack_of ctx t ++ [result]) ctx
               | None => ctx
               end, w'))
         | (Raise e, w') => (Raise e, (ctx, w'))
         end.
Proof.
  intros Hargs Hkws Hnd Htarget.
  destruct (comprehension_top ctx _ Hargs) as (args & Hargs2 & Hrun1).
  destruct (comprehension_kwtop ctx _ Hkws) as (pairs & Hpairs & Hrun2).
  destruct (kwtop_pairs ctx _ _ Hpairs) as [Hnames Hmem].
  exists args, (py_dict pairs).
  split; [exact Hargs2 |]. split.
  - intros name v. rewrite py_dict_lookup by (rewrite <- Hnames; exact Hnd).
    apply Hmem.
  - assert (Hkw : get_kwargs self ctx = (Ret (py_dict pairs), ctx)).
    { unfold get_kwargs. rewrite (bind_ret _ _ _ _ _ Hrun2). reflexivity. }
    unfold Call_evaluate.
    rewrite (bind_ret _ _ _ _ _ (in_context_run _ _ _ w _ Hrun1)).
    rewrite (bind_ret _ _ _ _ _ (in_context_run _ _ _ w _ Hkw)).
    destruct (call_func self args (py_dict pairs) w) as [[result | e] w']
      eqn:Hcall.
    + rewrite (bind_ret _ _ _ _ _ (in_world_run _ ctx _ _ _ Hcall)).
      destruct (call_target self) as [t |]; [| reflexivity].
      rewrite (bind_ret _ _ _ _ _
                 (in_context_run _ _ _ w' _
                    (context_append_usable ctx t result
                       (Htarget t eq_refl)))).
      reflexivity.
    + rewrite (bind_raise _ _ _ _ _ (in_world_run _ ctx _ _ _ Hcall)).
      reflexivity.
Qed.

Lemma same_stacks_refl (ctx : context) : same_stacks ctx ctx.
Proof. intros k. reflexivity. Qed.

Lemma same_stacks_trans (c1 c2 c3 : context) :
  same_stacks c1 c2 -> same_stacks c2 c3 -> same_stacks c1 c3.
Proof. intros H12 H23 k. rewrite H23. apply H12. Qed.

Lemma comprehension_same_stacks {A B} (f : A -> M context B) (l : list A) :
  (forall a c, same_stacks c (f a c).2) ->
  forall ctx, same_stacks ctx (comprehension f l ctx).2.
Proof.
  intros Hf. induction l as [| a l IH]; intros ctx; simpl.
  - apply same_stacks_refl.
  - rewrite bind_run. pose proof (Hf a ctx) as Ha.
    destruct (f a ctx) as [[b | e] c1]; simpl in *; [| exact Ha].
    rewrite bind_run. pose proof (IH c1) as Hl.
    destruct (comprehension f l c1) as [[bs | e] c2]; simpl in *;
      eapply same_stacks_trans; eassumption.
Qed.

Lemma get_args_same_stacks {W} (self : Call W) (ctx : context) :
  same_stacks ctx (get_args self ctx).2.
Proof.
  apply comprehension_same_stacks. intros t c. apply context_top_same_stacks.
Qed.

Lemma get_kwargs_same_stacks {W} (self : Call W) (ctx : context) :
  same_stacks ctx (get_kwargs self ctx).2.
Proof.
  unfold get_kwargs. rewrite bind_run.
  match goal with
  | |- context [comprehension ?f ?l ctx] =>
      pose proof (comprehension_same_stacks f l) as Hc
  end.
  match type of Hc with
  | ?P -> _ => assert (Hf : P)
  end.
  { intros [name t] c. rewrite bind_run.
    pose proof (context_top_same_stacks c t) as Ht.
    destruct (context_top t c) as [[v | e] c']; exact Ht. }
  specialize (Hc Hf ctx).
  match goal with
  | |- context [comprehension ?f ?l ctx] =>
      destruct (comprehension f l ctx) as [[pairs | e] c']
  end; exact Hc.
Qed.

Lemma Call_evaluate_no_target {W} (self : Call W) (thread : nat)
    (index_range : Z * Z) (batch_index : Z) (values : valuemap)
    (ctx : context) (w : W) :
  call_target self = None ->
  same_stacks ctx
    (Call_evaluate self thread index_range batch_index values (ctx, w)).2.1.
Proof.
  intros Hnone. unfold Call_evaluate. rewrite Hnone.
  pose proof (get_args_same_stacks self ctx) as H1.
  destruct (get_args self ctx) as [[args | e] c1] eqn:Hargs; simpl in H1.
  - rewrite (bind_ret _ _ _ _ _ (in_context_run _ _ _ w _ Hargs)).
    pose proof (get_kwargs_same_stacks self c1) as H2.
    destruct (get_kwargs self c1) as [[kwargs | e] c2] eqn:Hkw; simpl in H2.
    + rewrite (bind_ret _ _ _ _ _ (in_context_run _ _ _ w _ Hkw)).
      destruct (call_func self args kwargs w) as [[result | e] w'] eqn:Hcall.
      * rewrite (bind_ret _ _ _ _ _ (in_world_run _ c2 _ _ _ Hcall)).
        simpl. eapply same_stacks_trans; eassumption.
      * rewrite (bind_raise _ _ _ _ _ (in_world_run _ c2 _ _ _ Hcall)).
        simpl. eapply same_stacks_trans; eassumption.
    + rewrite (bind_raise _ _ _ _ _ (in_context_run _ _ _ w _ Hkw)).
      simpl. eapply same_stacks_trans; eassumption.
  - rewrite (bind_raise _ _ _ _ _ (in_context_run _ _ _ w _ Hargs)).
    exact H1.
Qed.

Lemma call_step_no_target {W} (op : call_op) (self : Call W)
    (ctx : context) (w : W) :
  call_target self = None ->
  call_target (call_step op (self, (ctx, w))).1 = None
  /\ same_stacks ctx (call_step op (self, (ctx, w))).2.1.
Proof.
  intros Hnone. destruct op; simpl.
  - split; [exact Hnone | apply same_stacks_refl].
  - split; [exact Hnone | apply get_args_same_stacks].
  - split; [exact Hnone | apply get_kwargs_same_stacks].
  - split; [exact Hnone | apply Call_evaluate_no_target, Hnone].
  - split; [reflexivity | apply same_stacks_refl].
Qed.

(** C9: after [remove_target], whatever methods of the instruction are then
    invoked, in whatever order and with whatever arguments, the target stays
    unset and every slot of the context, the former target's among them,
    shows the stack it showed before: no evaluation pushes a value. *)
Theorem remove_target_one_way {W : Type} (self : Call W)
    (ops : list call_op) (ctx : context) (w : W) :
  call_target (call_run ops (remove_target self, (ctx, w))).1 = None
  /\ same_stacks ctx (call_run ops (remove_target self, (ctx, w))).2.1.
Proof.
  assert (Hinv : forall ops (st : Call W * call_state W),
             call_target st.1 = None ->
             same_stacks ctx st.2.1 ->
             call_target (call_run ops st).1 = None
             /\ same_stacks ctx (call_run ops st).2.1).
  { clear ops. induction ops as [| op ops IH]; intros st Ht Hs.
    - split; assumption.
    - simpl. destruct st as [s [c w0]]; simpl in Ht, Hs.
      destruct (call_step_no_target op s c w0 Ht) as [Ht' Hs'].
      apply IH; [exact Ht' |].
      eapply same_stacks_trans; eassumption. }
  apply Hinv; [reflexivity | apply same_stacks_refl].
Qed.

(** ** Split *)

(** [Split.evaluate] step by step: the slot is looked up, unwrapped and
    narrowed to the shard, the shard is measured, and the rest runs on the
    window so obtained. A failure on the way leaves every object as it
    was. *)
Lemma Split_evaluate_unfold (STOP_ITERATION : string) (thread : nat)
    (index_range : Z * Z) (batch_index : Z) (values : valuemap)
    (self : Split) (ctx : context) :
  let st := {| ss_self := self; ss_context := ctx |} in
  Split_evaluate STOP_ITERATION thread index_range batch_index values st
  = match values !! split_target self with
    | None => (Raise (KeyError (split_target self)), st)
    | Some v =>
        match st_split (split_ty self) index_range.1 index_range.2
                (unwrap_operation v) with
        | Raise e => (Raise e, st)
        | Ret shard =>
            match st_elements (split_ty self) shard with
            | Raise e => (Raise e, st)
            | Ret count =>
                let start := 0 + split_batch_size self * batch_index in
                let en := start + split_batch_size self in
                let en := match count with
                          | Some n => Z.min en n
                          | None => en
                          end in
                (split_produce self start en shard
                 ≫= split_deliver STOP_ITERATION self) st
            end
        end
    end.
Proof.
  intros st. unfold Split_evaluate, values_get.
  rewrite bind_run. unfold get at 1. cbv beta iota.
  change (ss_self st) with self.
  rewrite bind_run. unfold lift at 1.
  destruct (values !! split_target self) as [v |]; [| reflexivity].
  rewrite bind_run. unfold lift at 1.
  destruct (st_split (split_ty self) index_range.1 index_range.2
              (unwrap_operation v)) as [shard | e]; [| reflexivity].
  rewrite bind_run. unfold lift at 1.
  destruct (st_elements (split_ty self) shard) as [count | e];
    reflexivity.
Qed.

(** The code's unwrapping gives the value that a slot stands for. *)
Lemma node_value_unwrap (v value : pyval) :
  node_value v value -> unwrap_operation v = value.
Proof.
  intros [held | v' Hplain]; [reflexivity |].
  destruct v'; try reflexivity.
  exfalso. eapply Hplain. reflexivity.
Qed.

(** C1: in every evaluation of a [Split] with batch size [s] at batch index
    [b], the slot's value, or the value that it holds when it is a graph
    node, is what [split(shardStart, shardEnd, value)] narrows to the shard;
    the window
    starts at [s*b] and ends at [s*b + s], or at the count that [elements]
    gives for the shard when that is smaller; the rest of the evaluation
    runs on that window and shard. *)
Theorem Split_evaluate_window (STOP_ITERATION : string) (thread : nat)
    (index_range : Z * Z) (batch_index : Z) (values : valuemap)
    (self : Split) (ctx : context) (v value shard : pyval)
    (count : option Z) :
  values !! split_target self = Some v ->
  node_value v value ->
  st_split (split_ty self) index_range.1 index_range.2 value = Ret shard ->
  st_elements (split_ty self) shard = Ret count ->
  let s := split_batch_size self in
  let st := {| ss_self := self; ss_context := ctx |} in
  let w := batch_window s batch_index count in
  Split_evaluate STOP_ITERATION thread index_range batch_index values st
  = (split_produce self w.1 w.2 shard ≫= split_deliver STOP_ITERATION self)
      st
  /\ w.1 = s * batch_index
  /\ w.2 = match count with
           | Some n => Z.min (s * batch_index + s) n
           | None => s * batch_index + s
           end
  /\ w.2 <= w.1 + s
  /\ (forall n, count = Some n -> w.2 <= n).
Proof.
  intros Hv Hnode Hshard Hcount s st w.
  apply node_value_unwrap in Hnode. subst value.
  split; [| split; [reflexivity | split; [reflexivity | split]]].
  - subst st. rewrite Split_evaluate_unfold. cbv zeta.
    rewrite Hv, Hshard, Hcount. reflexivity.
  - subst w. unfold batch_window; simpl. destruct count; lia.
  - intros n ->. subst w. unfold batch_window; simpl. lia.
Qed.

Lemma next_splitter_run (g : generator) (st : split_state) :
  next_splitter g st
  = ((next g).1,
     {| ss_self := with_splitter (SplitterGenerator (next g).2) (ss_self st);
        ss_context := ss_context st |}).
Proof.
  unfold next_splitter. destruct (next g) as [r g']. simpl.
  rewrite bind_run. unfold set_splitter, modify, lift. reflexivity.
Qed.

Lemma split_produce_run (self : Split) (start en : Z) (value : pyval)
    (st : split_state) :
  split_produce self start en value st
  = match split_splitter self with
    | None =>
        match st_split (split_ty self) start en value with
        | Raise e => (Raise e, st)
        | Ret (VGenerator g) => next_splitter g st
        | Ret result =>
            (Ret result,
             {| ss_self := with_splitter SplitterMethod (ss_self st);
                ss_context := ss_context st |})
        end
    | Some (SplitterGenerator g) => next_splitter g st
    | Some SplitterMethod => (st_split (split_ty self) start en value, st)
    end.
Proof.
  unfold split_produce.
  destruct (split_splitter self) as [[g |] |]; try reflexivity.
  rewrite bind_run. unfold lift at 1.
  destruct (st_split (split_ty self) start en value) as [result | e];
    [| reflexivity].
  destruct result; reflexivity.
Qed.

Lemma split_deliver_self (STOP_ITERATION : string) (self : Split)
    (result : pyval) (st : split_state) :
  ss_self (split_deliver STOP_ITERATION self result st).2 = ss_self st.
Proof.
  unfold split_deliver. destruct (is_marker STOP_ITERATION result).
  - reflexivity.
  - rewrite bind_run. unfold on_context. rewrite zoom_run.
    destruct (context_append (split_target self) result (ss_context st))
      as [[u | e] c]; reflexivity.
Qed.

Lemma lift_bind_run {S A B} (o : outcome A) (k : A -> M S B) (s : S) :
  (lift o ≫= k) s = match o with
                    | Ret a => k a s
                    | Raise e => (Raise e, s)
                    end.
Proof. rewrite bind_run. unfold lift. destruct o; reflexivity. Qed.

Lemma lift_bind_self (STOP_ITERATION : string) (self : Split)
    (o : outcome pyval) (st : split_state) :
  ss_self ((lift o ≫= split_deliver STOP_ITERATION self) st).2 = ss_self st.
Proof.
  rewrite lift_bind_run. destruct o; [apply split_deliver_self | reflexivity].
Qed.

(** The splitter that an evaluation leaves in [self.splitter]. *)
Lemma Split_evaluate_splitter (STOP_ITERATION : string) (thread : nat)
    (index_range : Z * Z) (batch_index : Z) (values : valuemap)
    (self : Split) (ctx : context) (v shard : pyval) (count : option Z) :
  values !! split_target self = Some v ->
  st_split (split_ty self) index_range.1 index_range.2 (unwrap_operation v)
  = Ret shard ->
  st_elements (split_ty self) shard = Ret count ->
  let st := {| ss_self := self; ss_context := ctx |} in
  let w := batch_window (split_batch_size self) batch_index count in
  let deliver_from (r : outcome pyval) (self' : Split) :=
    (lift r ≫= split_deliver STOP_ITERATION self)
      {| ss_self := self'; ss_context := ctx |} in
  Split_evaluate STOP_ITERATION thread index_range batch_index values st
  = match split_splitter self with
    | None =>
        match st_split (split_ty self) w.1 w.2 shard with
        | Raise e => (Raise e, st)
        | Ret (VGenerator g) =>
            deliver_from (next g).1
              (with_splitter (SplitterGenerator (next g).2) self)
        | Ret result =>
            deliver_from (Ret result) (with_splitter SplitterMethod self)
        end
    | Some (SplitterGenerator g) =>
        deliver_from (next g).1
          (with_splitter (SplitterGenerator (next g).2) self)
    | Some SplitterMethod =>
        deliver_from (st_split (split_ty self) w.1 w.2 shard) self
    end.
Proof.
  intros Hv Hshard Hcount st w deliver_from.
  subst st. rewrite Split_evaluate_unfold. cbv zeta.
  rewrite Hv, Hshard, Hcount.
  change (0 + split_batch_size self * batch_index) with w.1.
  match goal with
  | |- context [split_produce self w.1 ?e shard] => change e with w.2
  end.
  rewrite bind_run, split_produce_run. subst deliver_from. cbv beta.
  destruct (split_splitter self) as [[g |] |].
  - rewrite next_splitter_run, lift_bind_run. simpl.
    destruct (next g).1; reflexivity.
  - rewrite lift_bind_run.
    destruct (st_split (split_ty self) w.1 w.2 shard); reflexivity.
  - destruct (st_split (split_ty self) w.1 w.2 shard) as [result | e];
      [| reflexivity].
    destruct result; try (rewrite lift_bind_run; reflexivity).
    rewrite next_splitter_run, lift_bind_run. simpl.
    destruct (next g).1; reflexivity.
Qed.

(** C3: with the shard and the window at hand, an evaluation that finds no
    splitter calls [split(start, end, shard)]; a generator so obtained is
    kept in [self.splitter] and its first element is the result, any other
    value is the result and the bound [split] is kept. An evaluation that
    finds a generator takes its next element; one that finds the bound
    [split] calls it with the window of this evaluation. *)
Theorem Split_evaluate_memo (STOP_ITERATION : string) (thread : nat)
    (index_range : Z * Z) (batch_index : Z) (values : valuemap)
    (self : Split) (ctx : context) (v shard : pyval) (count : option Z) :
  values !! split_target self = Some v ->
  st_split (split_ty self) index_range.1 index_range.2 (unwrap_operation v)
  = Ret shard ->
  st_elements (split_ty self) shard = Ret count ->
  let st := {| ss_self := self; ss_context := ctx |} in
  let w := batch_window (split_batch_size self) batch_index count in
  let run :=
    Split_evaluate STOP_ITERATION thread index_range batch_index values st in
  let deliver_from (r : outcome pyval) (self' : Split) :=
    (lift r ≫= split_deliver STOP_ITERATION self)
      {| ss_self := self'; ss_context := ctx |} in
  (forall g,
     split_splitter self = None ->
     st_split (split_ty self) w.1 w.2 shard = Ret (VGenerator g) ->
     run = deliver_from (next g).1
             (with_splitter (SplitterGenerator (next g).2) self)
     /\ split_splitter (ss_self run.2)
        = Some (SplitterGenerator (next g).2))
  /\ (forall result,
        split_splitter self = None ->
        st_split (split_ty self) w.1 w.2 shard = Ret result ->
        (forall g, result <> VGenerator g) ->
        run = deliver_from (Ret result) (with_splitter SplitterMethod self)
        /\ split_splitter (ss_self run.2) = Some SplitterMethod)
  /\ (forall g,
        split_splitter self = Some (SplitterGenerator g) ->
        run = deliver_from (next g).1
                (with_splitter (SplitterGenerator (next g).2) self)
        /\ split_splitter (ss_self run.2)
           = Some (SplitterGenerator (next g).2))
  /\ (split_splitter self = Some SplitterMethod ->
      run = deliver_from (st_split (split_ty self) w.1 w.2 shard) self
      /\ split_splitter (ss_self run.2) = Some SplitterMethod).
Proof.
  intros Hv Hshard Hcount st w run deliver_from.
  pose proof (Split_evaluate_splitter STOP_ITERATION thread index_range
                batch_index values self ctx v shard count Hv Hshard Hcount)
    as Hrun.
  cbv zeta in Hrun. fold st w run in Hrun.
  repeat split.
  - rewrite Hrun, H, H0. reflexivity.
  - rewrite Hrun, H, H0. subst deliver_from. cbv beta.
    rewrite lift_bind_self. reflexivity.
  - rewrite Hrun, H, H0. destruct result; try reflexivity.
    exfalso. eapply H1. reflexivity.
  - rewrite Hrun, H, H0.
    destruct result;
      try (subst deliver_from; cbv beta; rewrite lift_bind_self;
           reflexivity).
    exfalso. eapply H1. reflexivity.
  - rewrite Hrun, H. reflexivity.
  - rewrite Hrun, H. subst deliver_from. cbv beta.
    rewrite lift_bind_self. reflexivity.
  - rewrite Hrun, H. reflexivity.
  - rewrite Hrun, H. subst deliver_from. cbv beta.
    rewrite lift_bind_self. simpl. exact H.
Qed.

Lemma split_produce_context (self : Split) (start en : Z) (value : pyval)
    (st : split_state) :
  ss_context (split_produce self start en value st).2 = ss_context st.
Proof.
  rewrite split_produce_run.
  destruct (split_splitter self) as [[g |] |].
  - rewrite next_splitter_run. reflexivity.
  - reflexivity.
  - destruct (st_split (split_ty self) start en value) as [result | e];
      [| reflexivity].
    destruct result; try reflexivity.
    rewrite next_splitter_run. reflexivity.
Qed.

Lemma is_marker_spec (STOP_ITERATION : string) (result : pyval) :
  is_marker STOP_ITERATION result = true <-> result = VStr STOP_ITERATION.
Proof.
  destruct result; simpl; try (split; [discriminate | discriminate]).
  rewrite bool_decide_eq_true. split; [intros -> | intros [= ->]]; reflexivity.
Qed.

Lemma split_deliver_marker (STOP_ITERATION : string) (self : Split)
    (st : split_state) :
  split_deliver STOP_ITERATION self (VStr STOP_ITERATION) st
  = (Ret (VStr STOP_ITERATION), st).
Proof.
  unfold split_deliver.
  rewrite (proj2 (is_marker_spec STOP_ITERATION _) eq_refl). reflexivity.
Qed.

Lemma split_deliver_push (STOP_ITERATION : string) (self : Split)
    (result : pyval) (st : split_state) :
  result <> VStr STOP_ITERATION ->
  slot_usable (ss_context st) (split_target self) ->
  split_deliver STOP_ITERATION self result st
  = (Ret VNone,
     {| ss_self := ss_self st;
        ss_context :=
          set_slot (split_target self)
            (stack_of (ss_context st) (split_target self) ++ [result])
            (ss_context st) |}).
Proof.
  intros Hne Hu. unfold split_deliver.
  destruct (is_marker STOP_ITERATION result) eqn:Hm.
  - apply is_marker_spec in Hm. contradiction.
  - rewrite bind_run. unfold on_context. rewrite zoom_run.
    rewrite (context_append_usable _ _ _ Hu). reflexivity.
Qed.

(** C2, as the code has it: a result that is a string equal to
    [STOP_ITERATION] makes [evaluate] return the marker with nothing pushed;
    any other result is appended to the stack of the target slot, when the
    context has or makes that stack. A result is taken for the marker
    exactly when it is that string, whether it is data or not. *)
Theorem Split_evaluate_deliver (STOP_ITERATION : string) (thread : nat)
    (index_range : Z * Z) (batch_index : Z) (values : valuemap)
    (self : Split) (ctx : context) (v shard : pyval) (count : option Z)
    (result : pyval) (st' : split_state) :
  values !! split_target self = Some v ->
  st_split (split_ty self) index_range.1 index_range.2 (unwrap_operation v)
  = Ret shard ->
  st_elements (split_ty self) shard = Ret count ->
  let st := {| ss_self := self; ss_context := ctx |} in
  let w := batch_window (split_batch_size self) batch_index count in
  split_produce self w.1 w.2 shard st = (Ret result, st') ->
  let run :=
    Split_evaluate STOP_ITERATION thread index_range batch_index values st in
  (is_marker STOP_ITERATION result = true <-> result = VStr STOP_ITERATION)
  /\ (result = VStr STOP_ITERATION ->
      run = (Ret (VStr STOP_ITERATION), st') /\ ss_context st' = ctx)
  /\ (result <> VStr STOP_ITERATION ->
      slot_usable ctx (split_target self) ->
      run = (Ret VNone,
             {| ss_self := ss_self st';
                ss_context :=
                  set_slot (split_target self)
                    (stack_of ctx (split_target self) ++ [result]) ctx |})).
Proof.
  intros Hv Hshard Hcount st w Hproduce run.
  assert (Hctx : ss_context st' = ctx).
  { pose proof (split_produce_context self w.1 w.2 shard st) as Hc.
    rewrite Hproduce in Hc. exact Hc. }
  assert (Hrun : run = split_deliver STOP_ITERATION self result st').
  { subst run st. rewrite Split_evaluate_unfold. cbv zeta.
    rewrite Hv, Hshard, Hcount.
    apply (bind_ret _ _ _ _ _ Hproduce). }
  split; [apply is_marker_spec |]. split.
  - intros ->. split; [| exact Hctx].
    rewrite Hrun. apply split_deliver_marker.
  - intros Hne Hu. rewrite Hrun.
    rewrite split_deliver_push; [| exact Hne | rewrite Hctx; exact Hu].
    rewrite Hctx. reflexivity.
Qed.

(** Whatever string the marker is, the string constant equal to it is
    reported as exhaustion by a split type that hands constants through. *)
Lemma marker_string_is_mistaken (STOP_ITERATION : string) :
  ~ data_never_mistaken STOP_ITERATION.
Proof.
  intros Hclaim.
  pose (ty := DataFrameSplit.ty (to_device_only DataFrameSplit.to_device)).
  pose (ctx := {| ctx_flavour := DefaultDict; ctx_slots := ∅ |}).
  apply (Hclaim (Split_init 0 ty CPU 2) 0%nat (0, 4) 0
           {[0 := VStr STOP_ITERATION]} ctx (VStr STOP_ITERATION)).
  - apply lookup_singleton_eq.
  - reflexivity.
  - reflexivity.
  - reflexivity.
  - rewrite (Split_evaluate_splitter STOP_ITERATION 0%nat (0, 4) 0
               {[0 := VStr STOP_ITERATION]} (Split_init 0 ty CPU 2) ctx
               (VStr STOP_ITERATION) (VStr STOP_ITERATION) None
               (lookup_singleton_eq _ _) eq_refl eq_refl).
    simpl. rewrite lift_bind_run, split_deliver_marker. reflexivity.
Qed.

(** C2, counterexample: with [STOP_ITERATION] being ["stop"], the slot holds
    the string constant ["stop"] as data; [DataFrameSplit] hands constants
    through, and the evaluation returns the marker and pushes nothing. *)
Lemma Split_marker_collision :
  let ty := DataFrameSplit.ty (to_device_only DataFrameSplit.to_device) in
  let self := Split_init 0 ty CPU 2 in
  let ctx := {| ctx_flavour := DefaultDict; ctx_slots := {[0 := []]} |} in
  Split_evaluate "stop" 0%nat (0, 4) 0 {[0 := VStr "stop"]}
    {| ss_self := self; ss_context := ctx |}
  = (Ret (VStr "stop"),
     {| ss_self := with_splitter SplitterMethod self; ss_context := ctx |})
  /\ ~ data_never_mistaken "stop".
Proof.
  split; [reflexivity | apply marker_string_is_mistaken].
Qed.

(** C6, counterexample: a lazy split type whose generator yields the two
    elements of the array, then the marker ["stop"], and returns. With batch
    size 1 the third evaluation returns the marker and the fourth raises
    [StopIteration] instead of returning the marker again. *)
Lemma exhaustion_not_monotone :
  let self := Split_init 0 (lazy_elements "stop") CPU 1 in
  let ctx := {| ctx_flavour := DefaultDict; ctx_slots := ∅ |} in
  let values : valuemap := {[0 := VArray [10; 20]]} in
  (Split_run "stop" 0%nat (0, 2) values [0; 1; 2; 3]
     {| ss_self := self; ss_context := ctx |}).1
  = [Ret VNone; Ret VNone; Ret (VStr "stop"); Raise StopIteration]
  /\ ~ exhaustion_monotone "stop".
Proof.
  intros self ctx values. split; [reflexivity |].
  intros Hclaim.
  pose (st2 := (Split_run "stop" 0%nat (0, 2) values [0; 1]
                  {| ss_self := self; ss_context := ctx |}).2).
  specialize (Hclaim (ss_self st2) 0%nat (0, 2) values (ss_context st2) 2 3
                (Split_evaluate "stop" 0%nat (0, 2) 2 values st2).2).
  assert (Hlater :
            (Split_evaluate "stop" 0%nat (0, 2) 3 values
               (Split_evaluate "stop" 0%nat (0, 2) 2 values st2).2).1
            = Ret (VStr "stop")).
  { apply Hclaim; [lia |]. vm_compute. reflexivity. }
  vm_compute in Hlater. discriminate Hlater.
Qed.

(** ** Exhaustion over a run *)

Lemma split_deliver_marker_inv (STOP_ITERATION : string) (self : Split)
    (result : pyval) (st st' : split_state) :
  split_deliver STOP_ITERATION self result st
  = (Ret (VStr STOP_ITERATION), st') ->
  result = VStr STOP_ITERATION /\ st' = st.
Proof.
  unfold split_deliver.
  destruct (is_marker STOP_ITERATION result) eqn:Hm.
  - apply is_marker_spec in Hm. intros [= <-]. split; [exact Hm | reflexivity].
  - rewrite bind_run. unfold on_context. rewrite zoom_run.
    destruct (context_append (split_target self) result (ss_context st))
      as [[u | e] c]; simpl; discriminate.
Qed.

Lemma deliver_from_marker_inv (STOP_ITERATION : string) (self : Split)
    (r : outcome pyval) (st st' : split_state) :
  (lift r ≫= split_deliver STOP_ITERATION self) st
  = (Ret (VStr STOP_ITERATION), st') ->
  r = Ret (VStr STOP_ITERATION) /\ st' = st.
Proof.
  rewrite lift_bind_run. destruct r as [result | e]; [| discriminate].
  intros H. apply split_deliver_marker_inv in H as [-> ->].
  split; reflexivity.
Qed.

Lemma next_marker_absorbing (STOP_ITERATION : string) (g : generator) :
  absorbing_generator STOP_ITERATION g ->
  (next g).1 = Ret (VStr STOP_ITERATION) ->
  exists body pos,
    (next g).2 = Generator body pos false
    /\ forall m : nat,
         (pos <= m)%nat -> body m = Yield (VStr STOP_ITERATION).
Proof.
  destruct g as [body pos finished]. simpl. intros Habs.
  destruct finished; [discriminate |].
  destruct (body pos) as [v | | e] eqn:Hbody; simpl; try discriminate.
  intros [= ->]. exists body, (S pos). split; [reflexivity |].
  intros m Hm. apply (Habs pos m); [lia | exact Hbody].
Qed.

(** The evaluation that returns the marker leaves an exhausted
    instruction and the context it found. *)
Lemma exhausted_intro (STOP_ITERATION : string) (thread : nat)
    (index_range : Z * Z) (b : Z) (values : valuemap)
    (self : Split) (ctx : context) (v shard : pyval) (count : option Z)
    (st1 : split_state) :
  absorbing_on STOP_ITERATION (split_ty self) shard ->
  absorbing_memo STOP_ITERATION self ->
  values !! split_target self = Some v ->
  st_split (split_ty self) index_range.1 index_range.2 (unwrap_operation v)
  = Ret shard ->
  st_elements (split_ty self) shard = Ret count ->
  Split_evaluate STOP_ITERATION thread index_range b values
    {| ss_self := self; ss_context := ctx |}
  = (Ret (VStr STOP_ITERATION), st1) ->
  exhausted STOP_ITERATION self shard b (ss_self st1)
  /\ ss_context st1 = ctx.
Proof.
  intros [Heager Hlazy] Hmemo Hv Hshard Hcount.
  rewrite (Split_evaluate_splitter STOP_ITERATION thread index_range b
             values self ctx v shard count Hv Hshard Hcount).
  cbv zeta. unfold absorbing_memo in Hmemo.
  set (w := batch_window (split_batch_size self) b count).
  assert (Hlazy_case : forall g,
             absorbing_generator STOP_ITERATION g ->
             (lift (next g).1 ≫= split_deliver STOP_ITERATION self)
               {| ss_self := with_splitter (SplitterGenerator (next g).2) self;
                  ss_context := ctx |}
             = (Ret (VStr STOP_ITERATION), st1) ->
             exhausted STOP_ITERATION self shard b (ss_self st1)
             /\ ss_context st1 = ctx).
  { intros g Habs Hrun. apply deliver_from_marker_inv in Hrun as [Hnext ->].
    destruct (next_marker_absorbing _ _ Habs Hnext) as (body & pos & Hg & Hm).
    split; [| reflexivity]. unfold exhausted; simpl. rewrite Hg.
    repeat split; try reflexivity. exact Hm. }
  destruct (split_splitter self) as [[g |] |] eqn:Hsp.
  - apply Hlazy_case, Hmemo.
  - intros Hrun. apply deliver_from_marker_inv in Hrun as [Hsplit ->].
    split; [| reflexivity]. unfold exhausted.
    repeat split; try reflexivity. simpl. rewrite Hsp.
    exists w.2. exact Hsplit.
  - destruct (st_split (split_ty self) w.1 w.2 shard) as [result | e] eqn:Hs;
      [| discriminate].
    destruct result;
      try (intros Hrun; apply deliver_from_marker_inv in Hrun as [Hr ->];
           split; [| reflexivity]; unfold exhausted;
           repeat split; try reflexivity; simpl;
           exists w.2; exact (eq_trans Hs Hr)).
    apply Hlazy_case. eapply Hlazy. exact Hs.
Qed.

(** An exhausted instruction returns the marker at every batch index that
    is not smaller, stays exhausted, and leaves the context alone. *)
Lemma exhausted_step (STOP_ITERATION : string) (thread : nat)
    (index_range : Z * Z) (values : valuemap) (self : Split) (ctx : context)
    (v shard : pyval) (count : option Z) (b b' : Z) (self' : Split) :
  absorbing_on STOP_ITERATION (split_ty self) shard ->
  values !! split_target self = Some v ->
  st_split (split_ty self) index_range.1 index_range.2 (unwrap_operation v)
  = Ret shard ->
  st_elements (split_ty self) shard = Ret count ->
  0 <= split_batch_size self ->
  b <= b' ->
  exhausted STOP_ITERATION self shard b self' ->
  exists self'',
    Split_evaluate STOP_ITERATION thread index_range b' values
      {| ss_self := self'; ss_context := ctx |}
    = (Ret (VStr STOP_ITERATION),
       {| ss_self := self''; ss_context := ctx |})
    /\ exhausted STOP_ITERATION self shard b self''.
Proof.
  intros [Heager _] Hv Hshard Hcount Hsize Hle (Ht & Hty & Hbs & Hmemo).
  assert (Hv' : values !! split_target self' = Some v)
    by (rewrite Ht; exact Hv).
  assert (Hshard' : st_split (split_ty self') index_range.1 index_range.2
                      (unwrap_operation v) = Ret shard)
    by (rewrite Hty; exact Hshard).
  assert (Hcount' : st_elements (split_ty self') shard = Ret count)
    by (rewrite Hty; exact Hcount).
  rewrite (Split_evaluate_splitter STOP_ITERATION thread index_range b'
             values self' ctx v shard count Hv' Hshard' Hcount').
  cbv zeta.
  destruct (split_splitter self') as [[[body pos finished] |] |] eqn:Hsp;
    [| | contradiction].
  - destruct Hmemo as [-> Hm].
    exists (with_splitter (SplitterGenerator (Generator body (S pos) false))
              self').
    simpl. rewrite (Hm pos) by lia. simpl.
    rewrite lift_bind_run, split_deliver_marker.
    split; [reflexivity |].
    unfold exhausted; simpl. repeat split; try assumption.
    intros m Hpos. apply Hm. lia.
  - destruct Hmemo as [en Hen].
    exists self'.
    set (w := batch_window (split_batch_size self') b' count).
    assert (Hsplit : st_split (split_ty self') w.1 w.2 shard
                     = Ret (VStr STOP_ITERATION)).
    { rewrite Hty.
      apply (Heager (split_batch_size self * b) en); [| exact Hen].
      subst w. unfold batch_window; simpl. rewrite Hbs. nia. }
    rewrite Hsplit, lift_bind_run, split_deliver_marker.
    split; [reflexivity |].
    unfold exhausted. rewrite Hsp. repeat split; try assumption.
    exists en. exact Hen.
Qed.

(** C6, as the code has it: for a split type that is absorbing on the
    shard of the run (on that shard its [split] keeps returning the marker
    for windows that start no earlier, and its generators keep yielding it),
    a stored generator, if there is one, that is absorbing, and a batch size
    that is not negative: once an evaluation has returned the marker, every
    evaluation that the thread makes afterwards on the same shard and
    values, at batch indices that are not smaller, returns the marker, and
    the context stays as it was. *)
Theorem exhaustion_monotone_absorbing (STOP_ITERATION : string)
    (thread : nat) (index_range : Z * Z) (values : valuemap)
    (self : Split) (ctx : context) (v shard : pyval) (b : Z)
    (later : list Z) (st1 : split_state) :
  values !! split_target self = Some v ->
  st_split (split_ty self) index_range.1 index_range.2 (unwrap_operation v)
  = Ret shard ->
  absorbing_on STOP_ITERATION (split_ty self) shard ->
  absorbing_memo STOP_ITERATION self ->
  0 <= split_batch_size self ->
  Forall (fun b' => b <= b') later ->
  Split_evaluate STOP_ITERATION thread index_range b values
    {| ss_self := self; ss_context := ctx |}
  = (Ret (VStr STOP_ITERATION), st1) ->
  let run := Split_run STOP_ITERATION thread index_range values later st1 in
  Forall (fun r => r = Ret (VStr STOP_ITERATION)) run.1
  /\ length run.1 = length later
  /\ ss_context run.2 = ctx.
Proof.
  intros Hv Hshard Hty Hmemo Hsize Hlater Hfirst.
  assert (Hok : exists count, st_elements (split_ty self) shard = Ret count).
  { pose proof Hfirst as Hcopy.
    rewrite Split_evaluate_unfold in Hcopy. cbv zeta in Hcopy.
    rewrite Hv, Hshard in Hcopy.
    destruct (st_elements (split_ty self) shard) as [count | e];
      [| discriminate].
    exists count. reflexivity. }
  destruct Hok as (count & Hcount).
  destruct (exhausted_intro _ _ _ _ _ _ _ _ _ _ _ Hty Hmemo Hv Hshard Hcount
              Hfirst) as [Hex Hctx].
  destruct st1 as [self1 ctx1]. simpl in Hex, Hctx. subst ctx1.
  clear Hfirst Hmemo. revert self1 Hex.
  induction Hlater as [| b' later Hb' _ IH]; intros self1 Hex; simpl.
  - repeat split. constructor.
  - destruct (exhausted_step STOP_ITERATION thread index_range values self
                ctx v shard count b b' self1 Hty Hv Hshard Hcount Hsize Hb'
                Hex) as (self2 & Hrun & Hex2).
    rewrite Hrun. specialize (IH self2 Hex2). simpl in IH.
    destruct (Split_run STOP_ITERATION thread index_range values later
                {| ss_self := self2; ss_context := ctx |}) as [rs st'].
    simpl in *. destruct IH as (Hall & Hlen & Hc).
    repeat split; [constructor; [reflexivity | exact Hall] | | exact Hc].
    rewrite Hlen. reflexivity.
Qed.

(** ** The statements on sample inputs *)

Lemma bounded_array_absorbing (STOP_ITERATION : string) (shard : pyval) :
  absorbing_on STOP_ITERATION (bounded_array STOP_ITERATION) shard.
Proof.
  split.
  - intros start en start' en' Hle. simpl.
    destruct shard; try discriminate.
    destruct (Z.leb_spec (Z.of_nat (length a)) start) as [Hin | Hout];
      [| discriminate].
    intros _. destruct (Z.leb_spec (Z.of_nat (length a)) start');
      [reflexivity | lia].
  - intros start en g. simpl.
    destruct shard; try discriminate.
    destruct (Z.of_nat (length a) <=? start); discriminate.
Qed.

(** [DataFrameSplit] is absorbing on every shard that is not itself a
    generator: a frame never gives the marker, and a constant is handed
    through whatever the window. *)
Lemma DataFrameSplit_absorbing_on (STOP_ITERATION : string)
    (to : pyval -> Backend -> outcome pyval) (shard : pyval) :
  (forall g, shard <> VGenerator g) ->
  absorbing_on STOP_ITERATION (DataFrameSplit.ty to) shard.
Proof.
  intros Hshard. split.
  - intros start en start' en' _. simpl.
    destruct shard; simpl; first [discriminate | intros H; exact H].
  - intros start en g. simpl.
    destruct shard; simpl; try discriminate.
    intros [= ->]. exfalso. eapply Hshard. reflexivity.
Qed.

Lemma Split_evaluate_window_witness :
  Split_evaluate "stop" 0%nat (0, 3) 1 example_node_values
    {| ss_self := example_split; ss_context := example_context |}
  = (split_produce example_split 2 3 (VFrame [1; 2; 3])
     ≫= split_deliver "stop" example_split)
      {| ss_self := example_split; ss_context := example_context |}.
Proof.
  assert (Hv : example_node_values !! split_target example_split
               = Some (VOperation (VFrame [1; 2; 3]))) by reflexivity.
  assert (Hnode : node_value (VOperation (VFrame [1; 2; 3]))
                    (VFrame [1; 2; 3])) by constructor.
  assert (Hshard : st_split (split_ty example_split) (0, 3).1 (0, 3).2
                     (VFrame [1; 2; 3])
                   = Ret (VFrame [1; 2; 3])) by reflexivity.
  assert (Hcount : st_elements (split_ty example_split) (VFrame [1; 2; 3])
                   = Ret (Some 3)) by reflexivity.
  exact (proj1 (Split_evaluate_window "stop" 0%nat (0, 3) 1
                  example_node_values example_split example_context _ _ _ _
                  Hv Hnode Hshard Hcount)).
Defined.

Lemma Split_evaluate_memo_witness :
  split_splitter
    (ss_self
       (Split_evaluate "stop" 0%nat (0, 3) 1 example_values
          {| ss_self := example_split; ss_context := example_context |}).2)
  = Some SplitterMethod.
Proof.
  assert (Hv : example_values !! split_target example_split
               = Some (VFrame [1; 2; 3])) by reflexivity.
  assert (Hshard : st_split (split_ty example_split) (0, 3).1 (0, 3).2
                     (unwrap_operation (VFrame [1; 2; 3]))
                   = Ret (VFrame [1; 2; 3])) by reflexivity.
  assert (Hcount : st_elements (split_ty example_split) (VFrame [1; 2; 3])
                   = Ret (Some 3)) by reflexivity.
  destruct (Split_evaluate_memo "stop" 0%nat (0, 3) 1 example_values
              example_split example_context _ _ _ Hv Hshard Hcount)
    as (_ & Heager & _).
  apply (Heager (VFrame [3])); [reflexivity | reflexivity | discriminate].
Defined.

Lemma Split_evaluate_deliver_witness :
  Split_evaluate "stop" 0%nat (0, 3) 1 example_values
    {| ss_self := example_split; ss_context := example_context |}
  = (Ret VNone,
     {| ss_self := with_splitter SplitterMethod example_split;
        ss_context := set_slot 0 [VFrame [3]] example_context |}).
Proof.
  assert (Hv : example_values !! split_target example_split
               = Some (VFrame [1; 2; 3])) by reflexivity.
  assert (Hshard : st_split (split_ty example_split) (0, 3).1 (0, 3).2
                     (unwrap_operation (VFrame [1; 2; 3]))
                   = Ret (VFrame [1; 2; 3])) by reflexivity.
  assert (Hcount : st_elements (split_ty example_split) (VFrame [1; 2; 3])
                   = Ret (Some 3)) by reflexivity.
  assert (Hproduce :
            split_produce example_split
              (batch_window (split_batch_size example_split) 1 (Some 3)).1
              (batch_window (split_batch_size example_split) 1 (Some 3)).2
              (VFrame [1; 2; 3])
              {| ss_self := example_split; ss_context := example_context |}
            = (Ret (VFrame [3]),
               {| ss_self := with_splitter SplitterMethod example_split;
                  ss_context := example_context |})) by reflexivity.
  destruct (Split_evaluate_deliver "stop" 0%nat (0, 3) 1 example_values
              example_split example_context _ _ _ _ _ Hv Hshard Hcount
              Hproduce) as (_ & _ & Hpush).
  apply Hpush; [discriminate |].
  right. exists []. reflexivity.
Defined.

Lemma exhaustion_monotone_absorbing_witness :
  Forall (fun r => r = Ret (VStr "stop"))
    (Split_run "stop" 0%nat (0, 3) example_constant [0; 1; 5]
       (Split_evaluate "stop" 0%nat (0, 3) 0 example_constant
          {| ss_self := example_split; ss_context := example_context |}).2).1
  /\ Forall (fun r => r = Ret (VStr "stop"))
       (Split_run "stop" 0%nat (0, 3) example_arrays [2; 3; 7]
          (Split_run "stop" 0%nat (0, 3) example_arrays [0; 1; 2]
             {| ss_self := Split_init 0 (bounded_array "stop") CPU 2;
                ss_context := example_context |}).2).1.
Proof.
  split.
  - pose (st1 := {| ss_self := with_splitter SplitterMethod example_split;
                    ss_context := example_context |}).
    assert (Hv : example_constant !! split_target example_split
                 = Some (VStr "stop")) by reflexivity.
    assert (Hshard : st_split (split_ty example_split) (0, 3).1 (0, 3).2
                       (unwrap_operation (VStr "stop"))
                     = Ret (VStr "stop")) by reflexivity.
    assert (Hty : absorbing_on "stop" (split_ty example_split) (VStr "stop"))
      by (apply DataFrameSplit_absorbing_on; discriminate).
    assert (Hfirst :
              Split_evaluate "stop" 0%nat (0, 3) 0 example_constant
                {| ss_self := example_split; ss_context := example_context |}
              = (Ret (VStr "stop"), st1)) by reflexivity.
    assert (Hlater : Forall (fun b' => 0 <= b') [0; 1; 5])
      by (repeat (constructor; [lia |]); constructor).
    assert (Hsize : 0 <= split_batch_size example_split)
      by (change (0 <= 2); lia).
    exact (proj1 (exhaustion_monotone_absorbing "stop" 0%nat (0, 3)
                    example_constant example_split example_context _ _ 0
                    [0; 1; 5] st1 Hv Hshard Hty I Hsize Hlater Hfirst)).
  - pose (st2 := (Split_run "stop" 0%nat (0, 3) example_arrays [0; 1]
                    {| ss_self := Split_init 0 (bounded_array "stop") CPU 2;
                       ss_context := example_context |}).2).
    assert (Hv : example_arrays !! split_target (ss_self st2)
                 = Some (VArray [1; 2; 3])) by reflexivity.
    assert (Hshard : st_split (split_ty (ss_self st2)) (0, 3).1 (0, 3).2
                       (unwrap_operation (VArray [1; 2; 3]))
                     = Ret (VArray [1; 2; 3])) by reflexivity.
    assert (Hfirst :
              Split_evaluate "stop" 0%nat (0, 3) 2 example_arrays
                {| ss_self := ss_self st2; ss_context := ss_context st2 |}
              = (Ret (VStr "stop"), st2)) by reflexivity.
    assert (Hlater : Forall (fun b' => 2 <= b') [2; 3; 7])
      by (repeat (constructor; [lia |]); constructor).
    assert (Hsize : 0 <= split_batch_size (ss_self st2))
      by (change (0 <= 2); lia).
    exact (proj1 (exhaustion_monotone_absorbing "stop" 0%nat (0, 3)
                    example_arrays (ss_self st2) (ss_context st2) _ _ 2
                    [2; 3; 7] st2 Hv Hshard
                    (bounded_array_absorbing "stop" _) I Hsize Hlater
                    Hfirst)).
Defined.

Lemma Call_evaluate_spec_witness :
  Call_evaluate example_call 0%nat (0, 3) 0 ∅ (example_call_context, 0%nat)
  = (Ret VNone,
     (set_slot 2 [VInt 42] example_call_context, 1%nat)).
Proof.
  assert (Hargs : Forall (slot_nonempty example_call_context)
                    (call_args example_call)).
  { repeat constructor. exists [VInt 1; VInt 40].
    split; [reflexivity | discriminate]. }
  assert (Hkwargs : Forall (slot_nonempty example_call_context)
                      (call_kwargs example_call).*2).
  { repeat constructor. exists [VInt 2].
    split; [reflexivity | discriminate]. }
  assert (Hnames : NoDup (call_kwargs example_call).*1)
    by (apply NoDup_singleton).
  assert (Htarget : forall t, call_target example_call = Some t ->
                              slot_usable example_call_context t).
  { intros t [= <-]. right. exists []. reflexivity. }
  destruct (Call_evaluate_spec example_call 0%nat (0, 3) 0 ∅
              example_call_context 0%nat Hargs Hkwargs Hnames Htarget)
    as (args & kwargs & Htops & Hkw & Hrun).
  assert (Ha : args = [VInt 40]).
  { inversion Htops as [| t v ts vs Htop Hrest]; subst.
    inversion Hrest; subst. injection Htop as <-. reflexivity. }
  assert (Hvalue : kwargs !! "value" = Some (VInt 2)).
  { apply Hkw. exists 1. split; [apply list_elem_of_singleton |]; reflexivity. }
  rewrite Hrun, Ha. simpl. unfold add_and_count. rewrite Hvalue.
  reflexivity.
Defined.

Lemma To_evaluate_replaces_top_witness :
  To_evaluate example_to 0%nat (0, 4) 0 ∅ example_to_context
  = (Ret VNone,
     set_slot 1 [VFrame [1; 2]; VCudf [3; 4]] example_to_context).
Proof.
  assert (Hslot : ctx_slots example_to_context !! to_target example_to
                  = Some [VFrame [1; 2]; VFrame [3; 4]]) by reflexivity.
  assert (Hlast : last [VFrame [1; 2]; VFrame [3; 4]] = Some (VFrame [3; 4]))
    by reflexivity.
  exact (proj1 (To_evaluate_replaces_top example_to 0%nat (0, 4) 0 ∅
                  example_to_context _ _ Hslot Hlast)).
Defined.

(** * Further properties of the code *)

(** ** Slices *)

Lemma py_slice_nonneg {A} (l : list A) (a b : Z) :
  0 <= a -> 0 <= b ->
  py_slice l a b
  = take (Z.to_nat (Z.min b (Z.of_nat (length l)))
          - Z.to_nat (Z.min a (Z.of_nat (length l))))%nat
         (drop (Z.to_nat (Z.min a (Z.of_nat (length l)))) l).
Proof.
  intros Ha Hb. unfold py_slice, slice_bound.
  destruct (Z.ltb_spec a 0); [lia |].
  destruct (Z.ltb_spec b 0); [lia |].
  f_equal. lia.
Qed.

Lemma take_drop_window {A} (l : list A) (i j k : nat) :
  (i <= j)%nat -> (j <= k)%nat ->
  take (j - i) (drop i l) ++ take (k - j) (drop j l)
  = take (k - i) (drop i l).
Proof.
  intros Hij Hjk.
  replace (drop j l) with (drop (j - i) (drop i l))
    by (rewrite drop_drop; f_equal; lia).
  rewrite take_take_drop. f_equal. lia.
Qed.

Lemma take_drop_same {A} (l : list A) (x1 y1 x2 y2 : nat) :
  (x1 = x2 /\ y1 = y2) \/ (x1 = 0%nat /\ x2 = 0%nat) ->
  take x1 (drop y1 l) = take x2 (drop y2 l).
Proof.
  intros [[-> ->] | [-> ->]]; reflexivity.
Qed.

Lemma drop_take_window {A} (l : list A) (i n : nat) :
  drop i (take n l) = take (n - i) (drop i l).
Proof.
  destruct (decide (i <= n)%nat) as [Hle | Hgt].
  - rewrite take_drop_commute. do 2 f_equal. lia.
  - replace (n - i)%nat with 0%nat by lia. rewrite take_0.
    apply drop_ge. rewrite length_take. lia.
Qed.

Lemma length_py_slice {A} (l : list A) (a b : Z) :
  0 <= a -> 0 <= b ->
  Z.of_nat (length (py_slice l a b))
  = Z.max 0 (Z.min b (Z.of_nat (length l)) - Z.min a (Z.of_nat (length l))).
Proof.
  intros Ha Hb. rewrite py_slice_nonneg by assumption.
  rewrite length_take, length_drop. lia.
Qed.

Lemma py_slice_full {A} (l : list A) (b : Z) :
  Z.of_nat (length l) <= b -> py_slice l 0 b = l.
Proof.
  intros Hb. rewrite py_slice_nonneg by lia.
  replace (Z.to_nat (Z.min 0 (Z.of_nat (length l)))) with 0%nat by lia.
  simpl. apply take_ge. lia.
Qed.

Lemma py_slice_adjacent {A} (l : list A) (a b c : Z) :
  0 <= a -> a <= b -> b <= c ->
  py_slice l a b ++ py_slice l b c = py_slice l a c.
Proof.
  intros Ha Hab Hbc. rewrite !py_slice_nonneg by lia.
  apply take_drop_window; lia.
Qed.

Lemma py_slice_nat {A} (l : list A) (a b : Z) :
  0 <= a -> 0 <= b ->
  py_slice l a b
  = take (Nat.min (Z.to_nat b) (length l) - Nat.min (Z.to_nat a) (length l))
         (drop (Nat.min (Z.to_nat a) (length l)) l).
Proof.
  intros Ha Hb. rewrite py_slice_nonneg by assumption.
  rewrite !Z2Nat.inj_min, !Nat2Z.id. reflexivity.
Qed.

Lemma compose_arith (n a b c d : nat) :
  (a <= b)%nat ->
  ((Nat.min (Nat.min d (Nat.min b n - Nat.min a n)
             - Nat.min c (Nat.min b n - Nat.min a n))
            (Nat.min b n - Nat.min a n
             - Nat.min c (Nat.min b n - Nat.min a n))
    = Nat.min (Nat.min (a + d) b) n - Nat.min (a + c) n
    /\ Nat.min a n + Nat.min c (Nat.min b n - Nat.min a n)
       = Nat.min (a + c) n)
   \/ (Nat.min (Nat.min d (Nat.min b n - Nat.min a n)
                - Nat.min c (Nat.min b n - Nat.min a n))
               (Nat.min b n - Nat.min a n
                - Nat.min c (Nat.min b n - Nat.min a n)) = 0
       /\ Nat.min (Nat.min (a + d) b) n - Nat.min (a + c) n = 0))%nat.
Proof.
  intros Hab.
  destruct (le_lt_dec n a) as [Han | Han].
  - right.
    rewrite (Nat.min_r a n), (Nat.min_r b n) by lia.
    rewrite Nat.sub_diag, !Nat.min_0_r. simpl.
    split; [reflexivity |].
    rewrite (Nat.min_r (a + c) n) by lia.
    apply Nat.sub_0_le, Nat.le_min_r.
  - rewrite (Nat.min_l a n) by lia.
    assert (HJ : exists J, (Nat.min b n = J /\ a <= J /\ J <= n /\ J <= b
                            /\ (J = b \/ J = n))%nat).
    { exists (Nat.min b n). lia. }
    destruct HJ as (J & -> & HaJ & HJn & HJb & HJcase).
    assert (HD : exists D, (Nat.min d (J - a) = D /\ D <= J - a /\ D <= d
                            /\ (D = d \/ D = J - a))%nat).
    { exists (Nat.min d (J - a)). lia. }
    destruct HD as (D & -> & HDM & HDd & HDcase).
    assert (Hq : (Nat.min (Nat.min (a + d) b) n = a + D)%nat).
    { destruct HDcase as [-> | ->]; destruct HJcase as [-> | ->]; lia. }
    rewrite Hq.
    destruct (le_lt_dec c (J - a)) as [Hc | Hc].
    + left. rewrite (Nat.min_l c (J - a)) by lia.
      rewrite (Nat.min_l (a + c) n) by lia.
      split; [| reflexivity].
      rewrite Nat.min_l by lia. lia.
    + right. rewrite (Nat.min_r c (J - a)) by lia.
      rewrite Nat.sub_diag, Nat.min_0_r.
      split; [reflexivity |].
      destruct (Nat.min_spec (a + c) n) as [[_ ->] | [_ ->]]; lia.
Qed.

Lemma take_drop_compose {A} (l : list A) (a b c d : nat) :
  (a <= b)%nat ->
  take (Nat.min d (Nat.min b (length l) - Nat.min a (length l))
        - Nat.min c (Nat.min b (length l) - Nat.min a (length l)))
       (drop (Nat.min c (Nat.min b (length l) - Nat.min a (length l)))
             (take (Nat.min b (length l) - Nat.min a (length l))
                   (drop (Nat.min a (length l)) l)))
  = take (Nat.min (Nat.min (a + d) b) (length l)
          - Nat.min (a + c) (length l))
         (drop (Nat.min (a + c) (length l)) l).
Proof.
  intros Hab.
  rewrite drop_take_window, take_take, drop_drop.
  apply take_drop_same.
  apply compose_arith. exact Hab.
Qed.

Lemma py_slice_py_slice {A} (l : list A) (a b c d : Z) :
  0 <= a -> a <= b -> 0 <= c -> 0 <= d ->
  py_slice (py_slice l a b) c d = py_slice l (a + c) (Z.min (a + d) b).
Proof.
  intros Ha Hab Hc Hd.
  rewrite (py_slice_nat (py_slice l a b)) by assumption.
  assert (Hlen : length (py_slice l a b)
                 = (Nat.min (Z.to_nat b) (length l)
                    - Nat.min (Z.to_nat a) (length l))%nat).
  { rewrite py_slice_nat by lia. rewrite length_take, length_drop. lia. }
  rewrite Hlen. rewrite (py_slice_nat l a b) by lia.
  rewrite (py_slice_nat l (a + c)) by lia.
  rewrite Z2Nat.inj_min, !Z2Nat.inj_add by lia.
  apply take_drop_compose. lia.
Qed.

(** ** DataFrameSplit: splitting and combining *)

Lemma do_combine_fold (values : list pyval) (acc : bool) :
  fold_left (fun do_combine val =>
               if negb (is_none val) then true else do_combine) values acc
  = acc || existsb (fun val => negb (is_none val)) values.
Proof.
  revert acc. induction values as [| v values IH]; intros acc; simpl.
  - rewrite orb_false_r. reflexivity.
  - rewrite IH. destruct (is_none v), acc; reflexivity.
Qed.

Lemma stack_rows_frames (rowss : list (list Z)) :
  stack_rows (map VFrame rowss) = Ret (concat rowss).
Proof.
  induction rowss as [| rows rowss IH]; simpl.
  - reflexivity.
  - rewrite IH. reflexivity.
Qed.

Lemma filter_not_none (parts : list (option (list Z))) :
  List.filter (fun obj => negb (is_none obj))
              (map (fun part => from_option VFrame VNone part) parts)
  = map VFrame (omap id parts).
Proof.
  induction parts as [| [rows |] parts IH]; simpl.
  - reflexivity.
  - rewrite IH. reflexivity.
  - exact IH.
Qed.

Lemma pd_concat_parts (parts : list (option (list Z))) :
  omap id parts <> [] ->
  pd_concat (map (fun part => from_option VFrame VNone part) parts)
  = Ret (VFrame (concat (omap id parts))).
Proof.
  intros Hsome. unfold pd_concat.
  destruct parts as [| part parts]; [contradiction |].
  change (map (fun part0 => from_option VFrame VNone part0) (part :: parts))
    with (from_option VFrame VNone part
          :: map (fun part0 => from_option VFrame VNone part0) parts).
  cbv iota.
  change (from_option VFrame VNone part
          :: map (fun part0 => from_option VFrame VNone part0) parts)
    with (map (fun part0 => from_option VFrame VNone part0) (part :: parts)).
  rewrite filter_not_none.
  destruct (omap id (part :: parts)) as [| rows rowss] eqn:Hkept;
    [contradiction |].
  change (map VFrame (rows :: rowss)) with (VFrame rows :: map VFrame rowss).
  cbv iota.
  change (VFrame rows :: map VFrame rowss) with (map VFrame (rows :: rowss)).
  rewrite stack_rows_frames. reflexivity.
Qed.

(** X1: [combine] falls through and returns [None] exactly when no value is
    other than [None], the empty list included. *)
Theorem DataFrameSplit_combine_nothing (values : list pyval)
    (original : pyval) :
  DataFrameSplit.combine values original = DataFrameSplit.NotCombined
  <-> Forall (fun val => val = VNone) values.
Proof.
  unfold DataFrameSplit.combine. rewrite do_combine_fold. simpl.
  assert (Hex : existsb (fun val => negb (is_none val)) values = false
                <-> Forall (fun val => val = VNone) values).
  { induction values as [| v values IH]; simpl.
    - split; [constructor | reflexivity].
    - rewrite orb_false_iff, IH, Forall_cons.
      destruct v; simpl; intuition discriminate. }
  destruct (existsb (fun val => negb (is_none val)) values) eqn:Hany.
  - assert (Hlen : (0 <? Z.of_nat (length values)) = true).
    { destruct values; [discriminate | reflexivity]. }
    rewrite Hlen. simpl. split.
    + destruct (pd_concat values) as [result | e]; [| discriminate].
      destruct original; discriminate.
    + intros Hall. apply Hex in Hall. discriminate.
  - simpl. split; [intros _; apply Hex; reflexivity | reflexivity].
Qed.

Lemma combine_of_parts (parts : list (option (list Z)))
    (original : pyval) :
  omap id parts <> [] ->
  let values := map (fun part => from_option VFrame VNone part) parts in
  let result := VFrame (concat (omap id parts)) in
  DataFrameSplit.combine values original
  = match original with
    | VNone => DataFrameSplit.Combined result
    | VArray _ => DataFrameSplit.AssignmentFailed
    | _ => DataFrameSplit.AssertionFailed
    end.
Proof.
  intros Hsome values result.
  unfold DataFrameSplit.combine. rewrite do_combine_fold. simpl.
  assert (Hany : existsb (fun val => negb (is_none val)) values = true).
  { subst values. clear result original.
    induction parts as [| [rows |] parts IH]; simpl.
    - contradiction.
    - reflexivity.
    - apply IH. exact Hsome. }
  assert (Hlen : (0 <? Z.of_nat (length values)) = true).
  { subst values. destruct parts; [contradiction | reflexivity]. }
  rewrite Hany, Hlen. simpl. subst values.
  rewrite (pd_concat_parts parts Hsome). reflexivity.
Qed.

(** X2: Frames and [None]s with at least one frame among them combine to the
    frames stacked in order, the [None]s dropped, when no [original] is
    given. With an array as [original] the assignment to its [data] raises,
    and an [original] that is neither [None] nor an array fails the
    assertion: in both cases nothing is returned. *)
Theorem DataFrameSplit_combine_frames (parts : list (option (list Z)))
    (original : pyval) :
  omap id parts <> [] ->
  let values := map (fun part => from_option VFrame VNone part) parts in
  let result := VFrame (concat (omap id parts)) in
  DataFrameSplit.combine values original
  = match original with
    | VNone => DataFrameSplit.Combined result
    | VArray _ => DataFrameSplit.AssignmentFailed
    | _ => DataFrameSplit.AssertionFailed
    end.
Proof. exact (combine_of_parts parts original). Qed.

Lemma DataFrameSplit_combine_frames_witness :
  DataFrameSplit.combine [VFrame [1; 2]; VNone; VFrame [3]] VNone
  = DataFrameSplit.Combined (VFrame [1; 2; 3])
  /\ DataFrameSplit.combine [VFrame [1; 2]; VNone; VFrame [3]]
       (VArray [0; 0; 0])
     = DataFrameSplit.AssignmentFailed.
Proof.
  split.
  - apply (DataFrameSplit_combine_frames [Some [1; 2]; None; Some [3]]
             VNone).
    discriminate.
  - apply (DataFrameSplit_combine_frames [Some [1; 2]; None; Some [3]]
             (VArray [0; 0; 0])).
    discriminate.
Defined.

(** X3: Two windows of a frame that follow one another combine to the window
    that spans both. *)
Theorem DataFrameSplit_split_adjacent (rows : list Z) (a b c : Z) :
  0 <= a -> a <= b -> b <= c ->
  exists x y z,
    DataFrameSplit.split a b (VFrame rows) = Ret x
    /\ DataFrameSplit.split b c (VFrame rows) = Ret y
    /\ DataFrameSplit.split a c (VFrame rows) = Ret z
    /\ DataFrameSplit.combine [x; y] VNone = DataFrameSplit.Combined z.
Proof.
  intros Ha Hab Hbc.
  exists (VFrame (py_slice rows a b)), (VFrame (py_slice rows b c)),
         (VFrame (py_slice rows a c)).
  repeat split.
  pose proof (combine_of_parts
                [Some (py_slice rows a b); Some (py_slice rows b c)] VNone
                ltac:(discriminate)) as Hc.
  change (DataFrameSplit.combine
            [VFrame (py_slice rows a b); VFrame (py_slice rows b c)] VNone
          = DataFrameSplit.Combined
              (VFrame (py_slice rows a b ++ py_slice rows b c ++ [])))
    in Hc.
  rewrite Hc, app_nil_r, py_slice_adjacent by assumption. reflexivity.
Qed.

Lemma DataFrameSplit_split_adjacent_witness :
  exists x y z,
    DataFrameSplit.split 0 2 (VFrame [1; 2; 3; 4; 5]) = Ret x
    /\ DataFrameSplit.split 2 5 (VFrame [1; 2; 3; 4; 5]) = Ret y
    /\ DataFrameSplit.split 0 5 (VFrame [1; 2; 3; 4; 5]) = Ret z
    /\ DataFrameSplit.combine [x; y] VNone = DataFrameSplit.Combined z.
Proof.
  apply (DataFrameSplit_split_adjacent [1; 2; 3; 4; 5] 0 2 5); lia.
Defined.

(** X4: A value that [elements] measures is given back whole by the window
    from [0] to its count, and combining that one piece gives it again. *)
Theorem DataFrameSplit_full_range (v : pyval) (n : Z) :
  DataFrameSplit.elements v = Ret (Some n) ->
  DataFrameSplit.split 0 n v = Ret v
  /\ DataFrameSplit.combine [v] VNone = DataFrameSplit.Combined v.
Proof.
  destruct v; try discriminate. intros [= <-]. split.
  - simpl. rewrite py_slice_full by lia. reflexivity.
  - pose proof (combine_of_parts [Some rows] VNone ltac:(discriminate))
      as Hc.
    change (DataFrameSplit.combine [VFrame rows] VNone
            = DataFrameSplit.Combined (VFrame (rows ++ []))) in Hc.
    rewrite Hc, app_nil_r. reflexivity.
Qed.

Lemma DataFrameSplit_full_range_witness :
  DataFrameSplit.split 0 3 (VFrame [7; 8; 9]) = Ret (VFrame [7; 8; 9])
  /\ DataFrameSplit.combine [VFrame [7; 8; 9]] VNone
     = DataFrameSplit.Combined (VFrame [7; 8; 9]).
Proof.
  apply (DataFrameSplit_full_range (VFrame [7; 8; 9]) 3). reflexivity.
Defined.

(** ** Split over frames *)

Lemma py_slice_clamp {A} (l : list A) (a b : Z) :
  0 <= a -> 0 <= b ->
  py_slice l a (Z.min b (Z.of_nat (length l))) = py_slice l a b.
Proof.
  intros Ha Hb. rewrite !py_slice_nonneg by lia.
  rewrite <- Z.min_assoc, Z.min_id. reflexivity.
Qed.

(** One evaluation on a slot that holds a frame, by an instruction of
    [DataFrameSplit] that holds no generator. *)
Lemma Split_frames_step (STOP_ITERATION : string) (thread : nat)
    (index_range : Z * Z) (b : Z) (values : valuemap) (self : Split)
    (ctx : context) (to : pyval -> Backend -> outcome pyval)
    (v : pyval) (rows : list Z) :
  split_ty self = DataFrameSplit.ty to ->
  (forall g, split_splitter self <> Some (SplitterGenerator g)) ->
  values !! split_target self = Some v ->
  unwrap_operation v = VFrame rows ->
  slot_usable ctx (split_target self) ->
  let shard := py_slice rows index_range.1 index_range.2 in
  let w := batch_window (split_batch_size self) b
             (Some (Z.of_nat (length shard))) in
  Split_evaluate STOP_ITERATION thread index_range b values
    {| ss_self := self; ss_context := ctx |}
  = (Ret VNone,
     {| ss_self := match split_splitter self with
                   | None => with_splitter SplitterMethod self
                   | Some _ => self
                   end;
        ss_context :=
          set_slot (split_target self)
            (stack_of ctx (split_target self)
             ++ [VFrame (py_slice shard w.1 w.2)]) ctx |}).
Proof.
  intros Hty Hgen Hv Hrows Husable shard w.
  assert (Hshard : st_split (split_ty self) index_range.1 index_range.2
                     (unwrap_operation v) = Ret (VFrame shard)).
  { rewrite Hty, Hrows. reflexivity. }
  assert (Hcount : st_elements (split_ty self) (VFrame shard)
                   = Ret (Some (Z.of_nat (length shard)))).
  { rewrite Hty. reflexivity. }
  rewrite (Split_evaluate_splitter STOP_ITERATION thread index_range b
             values self ctx v (VFrame shard) _ Hv Hshard Hcount).
  cbv zeta. fold w.
  assert (Hsplit : st_split (split_ty self) w.1 w.2 (VFrame shard)
                   = Ret (VFrame (py_slice shard w.1 w.2))).
  { rewrite Hty. reflexivity. }
  rewrite Hsplit.
  destruct (split_splitter self) as [[g |] |] eqn:Hsp.
  - exfalso. apply (Hgen g). reflexivity.
  - rewrite lift_bind_run, split_deliver_push;
      [reflexivity | discriminate | exact Husable].
  - rewrite lift_bind_run, split_deliver_push;
      [reflexivity | discriminate | exact Husable].
Qed.

Lemma slot_usable_set_slot (ctx : context) (k : Z) (stack : list pyval) :
  slot_usable (set_slot k stack ctx) k.
Proof. right. exists stack. apply lookup_insert_eq. Qed.

(** A run of evaluations on a slot that holds a frame: every evaluation
    pushes its window of the shard. *)
Lemma Split_frames_run_from (STOP_ITERATION : string) (thread : nat)
    (index_range : Z * Z) (values : valuemap)
    (to : pyval -> Backend -> outcome pyval) (v : pyval) (rows : list Z)
    (batches : list Z) (self : Split) (ctx : context) :
  split_ty self = DataFrameSplit.ty to ->
  (forall g, split_splitter self <> Some (SplitterGenerator g)) ->
  values !! split_target self = Some v ->
  unwrap_operation v = VFrame rows ->
  slot_usable ctx (split_target self) ->
  let shard := py_slice rows index_range.1 index_range.2 in
  let n := Z.of_nat (length shard) in
  let s := split_batch_size self in
  let run := Split_run STOP_ITERATION thread index_range values batches
               {| ss_self := self; ss_context := ctx |} in
  run.1 = map (fun _ => Ret VNone) batches
  /\ stack_of (ss_context run.2) (split_target self)
     = stack_of ctx (split_target self)
       ++ map (fun b => VFrame (py_slice shard (s * b) (Z.min (s * b + s) n)))
              batches
  /\ forall k, k <> split_target self ->
               stack_of (ss_context run.2) k = stack_of ctx k.
Proof.
  intros Hty Hgen Hv Hrows Husable shard n s.
  revert self ctx Hty Hgen Hv Hrows Husable s.
  induction batches as [| b batches IH];
    intros self ctx Hty Hgen Hv Hrows Husable s run.
  - subst run. simpl. rewrite app_nil_r. repeat split.
  - subst run. simpl.
    rewrite (Split_frames_step STOP_ITERATION thread index_range b values
               self ctx to v rows Hty Hgen Hv Hrows Husable).
    cbv zeta.
    set (self' := match split_splitter self with
                  | None => with_splitter SplitterMethod self
                  | Some _ => self
                  end).
    set (ctx' := set_slot (split_target self) _ ctx).
    assert (Hself : split_target self' = split_target self
                    /\ split_ty self' = split_ty self
                    /\ split_batch_size self' = split_batch_size self
                    /\ forall g,
                         split_splitter self' <> Some (SplitterGenerator g)).
    { subst self'. destruct (split_splitter self) as [[g |] |] eqn:Hsp.
      - exfalso. apply (Hgen g). first [exact Hsp | reflexivity].
      - repeat split; try reflexivity. intros g'.
        rewrite ?Hsp. discriminate.
      - repeat split; try reflexivity. intros g'. simpl. discriminate. }
    destruct Hself as (Ht' & Hty' & Hs' & Hgen').
    specialize (IH self' ctx').
    rewrite Ht', Hty', Hs' in IH.
    specialize (IH Hty Hgen' Hv Hrows (slot_usable_set_slot _ _ _)).
    cbv zeta in IH.
    destruct (Split_run STOP_ITERATION thread index_range values batches
                {| ss_self := self'; ss_context := ctx' |}) as [rs st'].
    simpl in *. destruct IH as (Hrs & Hstack & Hother).
    split; [rewrite Hrs; reflexivity |]. split.
    + rewrite Hstack. subst ctx'.
      rewrite stack_of_set_slot, decide_True by reflexivity.
      rewrite <- app_assoc. reflexivity.
    + intros k Hk. rewrite (Hother k Hk). subst ctx'.
      rewrite stack_of_set_slot, decide_False by congruence. reflexivity.
Qed.

Lemma combine_frames_list (frames : list (list Z)) :
  frames <> [] ->
  DataFrameSplit.combine (map VFrame frames) VNone
  = DataFrameSplit.Combined (VFrame (concat frames)).
Proof.
  intros Hne.
  assert (Hkept : omap id (map Some frames) = frames).
  { clear Hne. induction frames as [| f frames IH]; simpl;
      [reflexivity | f_equal; exact IH]. }
  pose proof (combine_of_parts (map Some frames) VNone) as Hc.
  rewrite Hkept in Hc. cbv zeta in Hc.
  rewrite map_map in Hc. simpl in Hc. apply Hc. exact Hne.
Qed.

Lemma windows_concat (l : list Z) (s : Z) (k : nat) :
  0 <= s ->
  concat (map (fun b => py_slice l (s * b)
                          (Z.min (s * b + s) (Z.of_nat (length l))))
              (map Z.of_nat (seq 0 k)))
  = py_slice l 0 (s * Z.of_nat k).
Proof.
  intros Hs. induction k as [| k IH].
  - simpl. rewrite Z.mul_0_r. unfold py_slice, slice_bound. simpl.
    rewrite Z.min_l by lia. reflexivity.
  - rewrite seq_S, !map_app, concat_app, IH. simpl.
    rewrite app_nil_r, py_slice_clamp by nia.
    rewrite py_slice_adjacent by nia.
    f_equal. lia.
Qed.

(** X5: Over a frame [DataFrameSplit] never signals exhaustion: at every batch
    index, in whatever order they come, the evaluation returns [None] and
    pushes its window of the shard, an empty frame once the window lies
    beyond the shard; no other slot changes. *)
Theorem Split_frames_never_exhaust (STOP_ITERATION : string) (thread : nat)
    (index_range : Z * Z) (values : valuemap) (target : Z)
    (to : pyval -> Backend -> outcome pyval) (backend : Backend)
    (s : Z) (v : pyval) (rows : list Z) (ctx : context)
    (batches : list Z) :
  values !! target = Some v ->
  unwrap_operation v = VFrame rows ->
  slot_usable ctx target ->
  let shard := py_slice rows index_range.1 index_range.2 in
  let n := Z.of_nat (length shard) in
  let run := Split_run STOP_ITERATION thread index_range values batches
               {| ss_self := Split_init target (DataFrameSplit.ty to)
                               backend s;
                  ss_context := ctx |} in
  run.1 = map (fun _ => Ret VNone) batches
  /\ stack_of (ss_context run.2) target
     = stack_of ctx target
       ++ map (fun b => VFrame (py_slice shard (s * b) (Z.min (s * b + s) n)))
              batches
  /\ forall k, k <> target ->
               stack_of (ss_context run.2) k = stack_of ctx k.
Proof.
  intros Hv Hrows Husable.
  apply (Split_frames_run_from STOP_ITERATION thread index_range values to
           v rows batches (Split_init target (DataFrameSplit.ty to) backend s)
           ctx); try assumption; try reflexivity.
  intros g. discriminate.
Qed.

Lemma Split_frames_never_exhaust_witness :
  (Split_run "stop" 0%nat (0, 3) example_values [0; 1; 2; 5]
     {| ss_self := example_split; ss_context := example_context |}).1
  = [Ret VNone; Ret VNone; Ret VNone; Ret VNone].
Proof.
  assert (Hv : example_values !! 0 = Some (VFrame [1; 2; 3])) by reflexivity.
  assert (Hrows : unwrap_operation (VFrame [1; 2; 3]) = VFrame [1; 2; 3])
    by reflexivity.
  assert (Husable : slot_usable example_context 0)
    by (right; exists []; reflexivity).
  exact (proj1 (Split_frames_never_exhaust "stop" 0%nat (0, 3) example_values
                  0 (to_device_only DataFrameSplit.to_device) CPU 2
                  (VFrame [1; 2; 3]) [1; 2; 3] example_context [0; 1; 2; 5]
                  Hv Hrows Husable)).
Defined.

(** X6: The batches of a shard, pushed for batch indices [0] to [k-1] with a
    positive batch size that reaches the end of the shard, combine to the
    shard: no row is lost, repeated or moved. *)
Theorem Split_frames_cover (STOP_ITERATION : string) (thread : nat)
    (index_range : Z * Z) (values : valuemap) (target : Z)
    (to : pyval -> Backend -> outcome pyval) (backend : Backend)
    (s : Z) (v : pyval) (rows : list Z) (ctx : context) (k : nat) :
  0 < s ->
  (0 < k)%nat ->
  values !! target = Some v ->
  unwrap_operation v = VFrame rows ->
  slot_usable ctx target ->
  stack_of ctx target = [] ->
  let shard := py_slice rows index_range.1 index_range.2 in
  Z.of_nat (length shard) <= s * Z.of_nat k ->
  let run := Split_run STOP_ITERATION thread index_range values
               (map Z.of_nat (seq 0 k))
               {| ss_self := Split_init target (DataFrameSplit.ty to)
                               backend s;
                  ss_context := ctx |} in
  DataFrameSplit.combine (stack_of (ss_context run.2) target) VNone
  = DataFrameSplit.Combined (VFrame shard).
Proof.
  intros Hs Hk Hv Hrows Husable Hempty shard Hreach run.
  destruct (Split_frames_run_from STOP_ITERATION thread index_range values to
              v rows (map Z.of_nat (seq 0 k))
              (Split_init target (DataFrameSplit.ty to) backend s) ctx
              eq_refl ltac:(intros g; discriminate) Hv Hrows Husable)
    as (_ & Hstack & _).
  fold shard in Hstack. fold run in Hstack. simpl in Hstack.
  rewrite Hstack, Hempty. simpl.
  rewrite <- (map_map (fun b => py_slice shard (s * b)
                                  (Z.min (s * b + s)
                                     (Z.of_nat (length shard))))
                      VFrame).
  rewrite combine_frames_list.
  - rewrite windows_concat by lia. rewrite py_slice_full by lia.
    reflexivity.
  - destruct k as [| k]; [lia |]. rewrite seq_S, !map_app. simpl.
    intros Hnil. apply app_eq_nil in Hnil as [_ Hnil]. discriminate.
Qed.

Lemma Split_frames_cover_witness :
  DataFrameSplit.combine
    (stack_of
       (ss_context
          (Split_run "stop" 0%nat (0, 3) example_values
             (map Z.of_nat (seq 0 2))
             {| ss_self := example_split;
                ss_context := example_context |}).2) 0) VNone
  = DataFrameSplit.Combined (VFrame [1; 2; 3]).
Proof.
  assert (Hs : 0 < 2) by lia.
  assert (Hk : (0 < 2)%nat) by lia.
  assert (Hv : example_values !! 0 = Some (VFrame [1; 2; 3])) by reflexivity.
  assert (Hrows : unwrap_operation (VFrame [1; 2; 3]) = VFrame [1; 2; 3])
    by reflexivity.
  assert (Husable : slot_usable example_context 0)
    by (right; exists []; reflexivity).
  assert (Hempty : stack_of example_context 0 = []) by reflexivity.
  assert (Hreach : Z.of_nat (length (py_slice [1; 2; 3] (0, 3).1 (0, 3).2))
                   <= 2 * Z.of_nat 2) by (simpl; lia).
  exact (Split_frames_cover "stop" 0%nat (0, 3) example_values 0
           (to_device_only DataFrameSplit.to_device) CPU 2
           (VFrame [1; 2; 3]) [1; 2; 3] example_context 2
           Hs Hk Hv Hrows Husable Hempty Hreach).
Defined.

(** X7: The two narrowings compose: with a shard [lo, hi) and a batch size and
    batch index that are not negative, the frame pushed holds the rows of
    the slot's frame from [lo + s*b] to [lo + s*b + s], cut at [hi], and so
    at most [s] rows. *)
Theorem Split_frames_window (STOP_ITERATION : string) (thread : nat)
    (lo hi b : Z) (values : valuemap) (self : Split) (ctx : context)
    (to : pyval -> Backend -> outcome pyval) (v : pyval) (rows : list Z) :
  split_ty self = DataFrameSplit.ty to ->
  (forall g, split_splitter self <> Some (SplitterGenerator g)) ->
  values !! split_target self = Some v ->
  unwrap_operation v = VFrame rows ->
  slot_usable ctx (split_target self) ->
  0 <= lo -> lo <= hi -> 0 <= split_batch_size self -> 0 <= b ->
  let s := split_batch_size self in
  let batch := py_slice rows (lo + s * b) (Z.min (lo + s * b + s) hi) in
  let run := Split_evaluate STOP_ITERATION thread (lo, hi) b values
               {| ss_self := self; ss_context := ctx |} in
  run.1 = Ret VNone
  /\ stack_of (ss_context run.2) (split_target self)
     = stack_of ctx (split_target self) ++ [VFrame batch]
  /\ Z.of_nat (length batch) <= s.
Proof.
  intros Hty Hgen Hv Hrows Husable Hlo Hhi Hs Hb s batch run.
  subst run.
  rewrite (Split_frames_step STOP_ITERATION thread (lo, hi) b values self ctx
             to v rows Hty Hgen Hv Hrows Husable).
  cbv zeta. cbn [fst snd ss_context].
  split; [reflexivity |]. split.
  - rewrite stack_of_set_slot, decide_True by reflexivity.
    do 3 f_equal. unfold batch_window. cbn [fst snd].
    fold s. rewrite py_slice_clamp by nia.
    rewrite py_slice_py_slice by nia.
    subst batch. f_equal. lia.
  - subst batch. rewrite length_py_slice by nia.
    set (n := Z.of_nat (length rows)).
    assert (0 <= s * b) by nia. lia.
Qed.

Lemma Split_frames_window_witness :
  stack_of
    (ss_context
       (Split_evaluate "stop" 0%nat (1, 3) 0 example_values
          {| ss_self := example_split; ss_context := example_context |}).2)
    0
  = [VFrame [2; 3]].
Proof.
  assert (Hgen : forall g, split_splitter example_split
                           <> Some (SplitterGenerator g))
    by (intros g; discriminate).
  assert (Hv : example_values !! split_target example_split
               = Some (VFrame [1; 2; 3])) by reflexivity.
  assert (Hrows : unwrap_operation (VFrame [1; 2; 3]) = VFrame [1; 2; 3])
    by reflexivity.
  assert (Husable : slot_usable example_context (split_target example_split))
    by (right; exists []; reflexivity).
  assert (Hlo : 0 <= 1) by lia.
  assert (Hhi : 1 <= 3) by lia.
  assert (Hs : 0 <= split_batch_size example_split) by (simpl; lia).
  assert (Hb : 0 <= 0) by lia.
  destruct (Split_frames_window "stop" 0%nat 1 3 0 example_values
              example_split example_context
              (to_device_only DataFrameSplit.to_device) (VFrame [1; 2; 3])
              [1; 2; 3] eq_refl Hgen Hv Hrows Husable Hlo Hhi Hs Hb)
    as (_ & Hstack & _).
  exact Hstack.
Defined.

(** ** Sums and distinct values over batches *)

(** Wrapping an operand before an [int64] addition changes nothing. *)
Lemma wrap_int64_add_l (a b : Z) :
  wrap_int64 (wrap_int64 a + b) = wrap_int64 (a + b).
Proof.
  unfold wrap_int64. f_equal.
  replace ((a + 2 ^ 63) mod 2 ^ 64 - 2 ^ 63 + b + 2 ^ 63)
    with ((a + 2 ^ 63) mod 2 ^ 64 + b) by ring.
  rewrite Zplus_mod_idemp_l. f_equal. ring.
Qed.

Lemma wrap_int64_add_r (a b : Z) :
  wrap_int64 (a + wrap_int64 b) = wrap_int64 (a + b).
Proof.
  rewrite (Z.add_comm a (wrap_int64 b)), wrap_int64_add_l.
  f_equal. apply Z.add_comm.
Qed.

(** A value of the [int64] range is left as it is. *)
Lemma wrap_int64_range (z : Z) :
  - 2 ^ 63 <= z < 2 ^ 63 -> wrap_int64 z = z.
Proof.
  intros Hz. unfold wrap_int64.
  rewrite Z.mod_small; [ring |].
  change (2 ^ 64) with (2 ^ 63 + 2 ^ 63). lia.
Qed.

(** Both sums are the exact sum, wrapped once. *)
Lemma series_sum_exact (rows : list Z) :
  series_sum rows = wrap_int64 (foldr Z.add 0 rows).
Proof.
  unfold series_sum. induction rows as [| x rows IH].
  - reflexivity.
  - cbn [foldr]. rewrite IH. unfold int64_add. apply wrap_int64_add_r.
Qed.

Lemma py_sum_from (values : list Z) (acc : Z) :
  fold_left int64_add values (wrap_int64 acc)
  = wrap_int64 (acc + foldr Z.add 0 values).
Proof.
  revert acc. induction values as [| x values IH]; intros acc.
  - cbn [fold_left foldr]. f_equal. ring.
  - cbn [fold_left foldr]. unfold int64_add at 2.
    rewrite wrap_int64_add_l, IH. f_equal. ring.
Qed.

Lemma py_sum_exact (values : list Z) :
  py_sum values = wrap_int64 (foldr Z.add 0 values).
Proof.
  unfold py_sum. change 0 with (wrap_int64 0) at 1.
  rewrite py_sum_from. reflexivity.
Qed.

Lemma sum_of_wrapped_sums (batches : list (list Z)) :
  wrap_int64 (foldr Z.add 0 (map series_sum batches))
  = wrap_int64 (foldr Z.add 0 (concat batches)).
Proof.
  induction batches as [| batch batches IH].
  - reflexivity.
  - cbn [map concat foldr]. rewrite foldr_app.
    rewrite series_sum_exact, wrap_int64_add_l.
    rewrite <- wrap_int64_add_r, IH, wrap_int64_add_r.
    f_equal.
    generalize (foldr Z.add 0 (concat batches)). intros rest.
    induction batch as [| x batch IHb]; cbn [foldr]; [ring |].
    rewrite <- IHb. ring.
Qed.

(** X8: The sums of the batches of an [int64] series, combined by
    [SumSplit], give the sum of the whole series, however the series is cut
    into batches, also where a sum wraps around. *)
Theorem SumSplit_combine_pandasum (batches : list (list Z)) :
  SumSplit.combine (map Annotated.pandasum batches)
  = Annotated.pandasum (concat batches).
Proof.
  unfold SumSplit.combine, Annotated.pandasum.
  rewrite py_sum_exact, series_sum_exact.
  apply sum_of_wrapped_sums.
Qed.

Lemma elem_of_unique_from (rows seen : list Z) (x : Z) :
  x ∈ fold_left (fun seen x => if decide (x ∈ seen) then seen
                               else seen ++ [x]) rows seen
  <-> x ∈ seen \/ x ∈ rows.
Proof.
  revert seen. induction rows as [| y rows IH]; intros seen; simpl.
  - rewrite elem_of_nil. tauto.
  - rewrite IH, elem_of_cons. destruct (decide (y ∈ seen)) as [Hin | Hnot].
    + split; [tauto |]. intros [H | [-> | H]]; tauto.
    + rewrite elem_of_app, list_elem_of_singleton. tauto.
Qed.

Lemma NoDup_unique_from (rows seen : list Z) :
  NoDup seen ->
  NoDup (fold_left (fun seen x => if decide (x ∈ seen) then seen
                                  else seen ++ [x]) rows seen).
Proof.
  revert seen. induction rows as [| y rows IH]; intros seen Hnd; simpl.
  - exact Hnd.
  - apply IH. destruct (decide (y ∈ seen)) as [Hin | Hnot]; [exact Hnd |].
    apply NoDup_app. split; [exact Hnd |]. split.
    + intros x Hx Hy. apply list_elem_of_singleton in Hy. subst. contradiction.
    + apply NoDup_singleton.
Qed.

(** X9: The distinct values of the batches of a series, combined by
    [UniqueSplit], are the distinct values of the whole series: the same
    values as [unique] of the series gives, each once, in increasing order
    instead of the order of first appearance. *)
Theorem UniqueSplit_combine_unique (batches : list (list Z)) :
  let combined := UniqueSplit.combine (map Annotated.unique batches) in
  (forall x, x ∈ combined <-> x ∈ Annotated.unique (concat batches))
  /\ StronglySorted Z.lt combined
  /\ NoDup (Annotated.unique (concat batches)).
Proof.
  intros combined. split; [| split].
  - intros x. subst combined.
    assert (Hc : UniqueSplit.combine (map Annotated.unique batches)
                 = np_unique (np_concatenate (map Annotated.unique batches))).
    { destruct batches; reflexivity. }
    rewrite Hc, elem_of_np_unique.
    unfold Annotated.unique, series_unique, np_concatenate.
    rewrite elem_of_unique_from, elem_of_nil.
    rewrite !list_elem_of_In, !in_concat.
    split.
    + intros (u & Hu & Hx). apply in_map_iff in Hu as (batch & <- & Hbatch).
      right. exists batch. split; [exact Hbatch |].
      apply list_elem_of_In in Hx.
      apply elem_of_unique_from in Hx as [Hx | Hx];
        [apply elem_of_nil in Hx; contradiction |].
      apply list_elem_of_In. exact Hx.
    + intros [[] | (batch & Hbatch & Hx)].
      exists (series_unique batch). split.
      * apply in_map_iff. exists batch. split; [reflexivity | exact Hbatch].
      * apply list_elem_of_In. unfold series_unique.
        apply elem_of_unique_from. right. apply list_elem_of_In. exact Hx.
  - subst combined.
    assert (Hc : UniqueSplit.combine (map Annotated.unique batches)
                 = np_unique (np_concatenate (map Annotated.unique batches))).
    { destruct batches; reflexivity. }
    rewrite Hc. apply np_unique_sorted.
  - apply NoDup_unique_from. constructor.
Qed.

(** ** Transfers between host and device *)

(** X10: For [DataFrameSplit], a transfer to the device and back gives the
    value again unless it was a device frame to begin with, and a transfer
    to the host and back to the device gives it again unless it was a host
    frame; transferring twice the same way is transferring once. *)
Theorem DataFrameSplit_transfer_round_trip (value : pyval) :
  ((forall rows, value <> VCudf rows) ->
   DataFrameSplit.to_host (DataFrameSplit.to_device value) = value)
  /\ ((forall rows, value <> VFrame rows) ->
      DataFrameSplit.to_device (DataFrameSplit.to_host value) = value)
  /\ DataFrameSplit.to_device (DataFrameSplit.to_device value)
     = DataFrameSplit.to_device value
  /\ DataFrameSplit.to_host (DataFrameSplit.to_host value)
     = DataFrameSplit.to_host value.
Proof.
  split; [| split; [| split]].
  - intros Hhost. destruct value; try reflexivity.
    exfalso. eapply Hhost. reflexivity.
  - intros Hdevice. destruct value; try reflexivity.
    exfalso. eapply Hdevice. reflexivity.
  - destruct value; reflexivity.
  - destruct value; reflexivity.
Qed.

Lemma DataFrameSplit_transfer_round_trip_witness :
  DataFrameSplit.to_host (DataFrameSplit.to_device (VFrame [1; 2]))
  = VFrame [1; 2].
Proof.
  assert (Hhost : forall rows, VFrame [1; 2] <> VCudf rows)
    by (intros rows; discriminate).
  exact (proj1 (DataFrameSplit_transfer_round_trip (VFrame [1; 2])) Hhost).
Defined.

(** ** To: transfers in sequence and empty slots *)

Lemma To_evaluate_run (self : To) (thread : nat) (index_range : Z * Z)
    (batch_index : Z) (values : valuemap) (ctx : context)
    (stack : list pyval) (old_value : pyval) :
  ctx_slots ctx !! to_target self = Some stack ->
  last stack = Some old_value ->
  To_evaluate self thread index_range batch_index values ctx
  = match st_to (to_ty self) old_value (to_backend self) with
    | Ret new_value =>
        (Ret VNone,
         set_slot (to_target self) (removelast stack ++ [new_value]) ctx)
    | Raise e => (Raise e, ctx)
    end.
Proof.
  intros Hk Hlast. unfold To_evaluate, context_top, context_set_top.
  rewrite !bind_run, (context_getitem_bound _ _ _ Hk), Hlast.
  unfold mret, M_ret, lift.
  destruct (st_to (to_ty self) old_value (to_backend self))
    as [new_value | e]; [| reflexivity].
  rewrite !bind_run, (context_getitem_bound _ _ _ Hk).
  destruct stack as [| x stack']; [discriminate | reflexivity].
Qed.

Lemma set_slot_bound (ctx : context) (k : Z) (stack : list pyval) :
  ctx_slots ctx !! k = Some stack -> set_slot k stack ctx = ctx.
Proof.
  intros Hk. destruct ctx as [flavour slots]. unfold set_slot; simpl in *.
  f_equal. apply insert_id. exact Hk.
Qed.

Lemma last_snoc_removelast (stack : list pyval) (v : pyval) :
  last stack = Some v -> removelast stack ++ [v] = stack.
Proof.
  destruct stack as [| x stack] using rev_ind; [discriminate |].
  rewrite last_snoc. intros [= ->]. rewrite removelast_last. reflexivity.
Qed.

(** X11: A transfer to the device followed by a transfer to the host, by a split
    type whose [to] goes through [DataFrameSplit.to_device] and
    [DataFrameSplit.to_host], leaves the context exactly as it was, when
    the top of the slot is not a device frame to begin with. *)
Theorem To_device_and_back (thread : nat) (index_range : Z * Z)
    (batch_index : Z) (values : valuemap) (ty : SplitType) (target : Z)
    (ctx : context) (stack : list pyval) (old_value : pyval) :
  (forall v, st_to ty v GPU = Ret (DataFrameSplit.to_device v)) ->
  (forall v, st_to ty v CPU = Ret (DataFrameSplit.to_host v)) ->
  ctx_slots ctx !! target = Some stack ->
  last stack = Some old_value ->
  (forall rows, old_value <> VCudf rows) ->
  let there :=
    To_evaluate {| to_target := target; to_ty := ty; to_backend := GPU |}
      thread index_range batch_index values ctx in
  let back :=
    To_evaluate {| to_target := target; to_ty := ty; to_backend := CPU |}
      thread index_range batch_index values there.2 in
  there.1 = Ret VNone
  /\ top_of there.2 target = Some (DataFrameSplit.to_device old_value)
  /\ back = (Ret VNone, ctx).
Proof.
  intros Hgpu Hcpu Hk Hlast Hhost there back.
  assert (Hthere : there
                   = (Ret VNone,
                      set_slot target
                        (removelast stack
                         ++ [DataFrameSplit.to_device old_value]) ctx)).
  { subst there.
    rewrite (To_evaluate_run
               {| to_target := target; to_ty := ty; to_backend := GPU |}
               thread index_range batch_index values ctx stack old_value
               Hk Hlast).
    simpl. rewrite Hgpu. reflexivity. }
  subst back. rewrite Hthere. simpl.
  split; [reflexivity |]. split.
  - unfold top_of. rewrite stack_of_set_slot, decide_True by reflexivity.
    apply last_snoc.
  - rewrite (To_evaluate_run
               {| to_target := target; to_ty := ty; to_backend := CPU |}
               thread index_range batch_index values _
               (removelast stack ++ [DataFrameSplit.to_device old_value])
               (DataFrameSplit.to_device old_value));
      [| apply lookup_insert_eq | apply last_snoc].
    simpl. rewrite Hcpu, removelast_last, set_slot_set_slot.
    assert (Hround : DataFrameSplit.to_host
                       (DataFrameSplit.to_device old_value) = old_value).
    { destruct old_value; try reflexivity.
      exfalso. eapply Hhost. reflexivity. }
    rewrite Hround, (last_snoc_removelast _ _ Hlast).
    rewrite (set_slot_bound _ _ _ Hk). reflexivity.
Qed.

Lemma To_device_and_back_witness :
  To_evaluate {| to_target := 1; to_ty := DataFrameSplit.ty
                   (fun v backend =>
                      match backend with
                      | GPU => Ret (DataFrameSplit.to_device v)
                      | CPU => Ret (DataFrameSplit.to_host v)
                      end);
                 to_backend := CPU |} 0%nat (0, 4) 0 ∅
    (To_evaluate {| to_target := 1; to_ty := DataFrameSplit.ty
                      (fun v backend =>
                         match backend with
                         | GPU => Ret (DataFrameSplit.to_device v)
                         | CPU => Ret (DataFrameSplit.to_host v)
                         end);
                    to_backend := GPU |} 0%nat (0, 4) 0 ∅
       example_to_context).2
  = (Ret VNone, example_to_context).
Proof.
  assert (Hk : ctx_slots example_to_context !! 1
               = Some [VFrame [1; 2]; VFrame [3; 4]]) by reflexivity.
  assert (Hlast : last [VFrame [1; 2]; VFrame [3; 4]] = Some (VFrame [3; 4]))
    by reflexivity.
  assert (Hhost : forall rows, VFrame [3; 4] <> VCudf rows)
    by (intros rows; discriminate).
  destruct (To_device_and_back 0%nat (0, 4) 0 ∅
              (DataFrameSplit.ty
                 (fun v backend =>
                    match backend with
                    | GPU => Ret (DataFrameSplit.to_device v)
                    | CPU => Ret (DataFrameSplit.to_host v)
                    end))
              1 example_to_context _ _
              (fun v => eq_refl) (fun v => eq_refl) Hk Hlast Hhost)
    as (_ & _ & Hback).
  exact Hback.
Defined.

Lemma context_top_empty (ctx : context) (k : Z) :
  stack_of ctx k = [] ->
  exists e, (context_top k ctx).1 = Raise e
            /\ (e = IndexError \/ e = KeyError k).
Proof.
  unfold stack_of, context_top, context_getitem. rewrite bind_run.
  destruct (ctx_slots ctx !! k) as [stack |]; simpl.
  - intros ->. exists IndexError. split; [reflexivity | left; reflexivity].
  - intros _. destruct (ctx_flavour ctx); simpl.
    + exists (KeyError k). split; [reflexivity | right; reflexivity].
    + exists IndexError. split; [reflexivity | left; reflexivity].
Qed.



(** ** Call: a missing argument *)

Lemma context_top_raises (ctx : context) (k : Z) (e : exn) :
  (context_top k ctx).1 = Raise e ->
  e = IndexError \/ exists k', e = KeyError k'.
Proof.
  unfold context_top, context_getitem. rewrite bind_run.
  destruct (ctx_slots ctx !! k) as [stack |]; simpl.
  - destruct (last stack); simpl; [discriminate |].
    intros [= <-]. left. reflexivity.
  - destruct (ctx_flavour ctx); simpl.
    + intros [= <-]. right. exists k. reflexivity.
    + intros [= <-]. left. reflexivity.
Qed.

Lemma comprehension_raises_kind {A B} (f : A -> M context B) (l : list A) :
  (forall a c e, (f a c).1 = Raise e ->
                 e = IndexError \/ exists k, e = KeyError k) ->
  forall ctx e,
    (comprehension f l ctx).1 = Raise e ->
    e = IndexError \/ exists k, e = KeyError k.
Proof.
  intros Hkind. induction l as [| a l IH]; intros ctx e; simpl.
  - discriminate.
  - rewrite bind_run. pose proof (Hkind a ctx) as Hk.
    destruct (f a ctx) as [[b | e1] c1]; simpl in *.
    + rewrite bind_run. pose proof (IH c1) as Hl.
      destruct (comprehension f l c1) as [[bs | e2] c2]; simpl in *;
        [discriminate |].
      intros [= <-]. apply Hl. reflexivity.
    + intros [= <-]. apply Hk. reflexivity.
Qed.

Lemma comprehension_empty_slot {A B} (f : A -> M context B) (slot : A -> Z)
    (l : list A) :
  (forall a c, stack_of c (slot a) = [] -> exists e, (f a c).1 = Raise e) ->
  (forall a c e, (f a c).1 = Raise e ->
                 e = IndexError \/ exists k, e = KeyError k) ->
  (forall a c, same_stacks c (f a c).2) ->
  forall ctx,
    Exists (fun a => stack_of ctx (slot a) = []) l ->
    exists e, (comprehension f l ctx).1 = Raise e
              /\ (e = IndexError \/ exists k, e = KeyError k).
Proof.
  intros Hraise Hkind Hsame. induction l as [| a l IH]; intros ctx Hex.
  - inversion Hex.
  - simpl. rewrite bind_run.
    pose proof (Hsame a ctx) as Ha.
    pose proof (Hkind a ctx) as Hk.
    destruct (f a ctx) as [[b | e] c1] eqn:Hfa; simpl in Ha, Hk.
    + assert (Hex' : Exists (fun a0 => stack_of c1 (slot a0) = []) l).
      { apply Exists_cons in Hex as [Hhead | Htail].
        - destruct (Hraise a ctx Hhead) as (e & He).
          rewrite Hfa in He. discriminate.
        - eapply Exists_impl; [exact Htail |].
          intros a0 Hempty. simpl in Hempty. rewrite Ha. exact Hempty. }
      destruct (IH c1 Hex') as (e & He & Hke).
      rewrite bind_run.
      destruct (comprehension f l c1) as [[bs | e'] c2]; simpl in *;
        [discriminate |].
      exists e'. split; [reflexivity |]. injection He as ->. exact Hke.
    + exists e. split; [reflexivity | apply Hk; reflexivity].
Qed.

(** X13: When a positional or keyword argument slot has no value,
    [Call.evaluate] raises [IndexError] or [KeyError] before the function is
    called: the world is the one it was given and no slot shows a different
    stack. *)
Theorem Call_evaluate_missing_argument {W : Type} (self : Call W)
    (thread : nat) (index_range : Z * Z) (batch_index : Z)
    (values : valuemap) (ctx : context) (w : W) :
  Exists (fun t => stack_of ctx t = [])
         (call_args self ++ (call_kwargs self).*2) ->
  let run :=
    Call_evaluate self thread index_range batch_index values (ctx, w) in
  (exists e, run.1 = Raise e
             /\ (e = IndexError \/ exists k, e = KeyError k))
  /\ run.2.2 = w
  /\ same_stacks ctx run.2.1.
Proof.
  intros Hex run. subst run. unfold Call_evaluate.
  assert (Hargs_raise :
            forall c, Exists (fun t => stack_of c t = []) (call_args self) ->
                      exists e, (get_args self c).1 = Raise e
                                /\ (e = IndexError
                                    \/ exists k, e = KeyError k)).
  { intros c Hc. unfold get_args.
    apply (comprehension_empty_slot _ (fun t => t)); try exact Hc.
    - intros t c0 Hempty.
      destruct (context_top_empty c0 t Hempty) as (e & He & _).
      exists e. exact He.
    - intros t c0 e. apply context_top_raises.
    - intros t c0. apply context_top_same_stacks. }
  assert (Hkw_raise :
            forall c, Exists (fun t => stack_of c t = [])
                             (call_kwargs self).*2 ->
                      exists e, (get_kwargs self c).1 = Raise e
                                /\ (e = IndexError
                                    \/ exists k, e = KeyError k)).
  { intros c Hc. unfold get_kwargs. rewrite bind_run.
    apply Exists_fmap in Hc.
    match goal with
    | |- context [comprehension ?f ?l c] =>
        destruct (comprehension_empty_slot f snd l) with (ctx := c)
          as (e & He & Hke)
    end.
    - intros [name t] c0 Hempty. simpl in Hempty. rewrite bind_run.
      destruct (context_top_empty c0 t Hempty) as (e & He & _).
      destruct (context_top t c0) as [[v | e'] c']; simpl in *;
        [discriminate |].
      exists e'. reflexivity.
    - intros [name t] c0 e. rewrite bind_run.
      pose proof (context_top_raises c0 t) as Hk.
      destruct (context_top t c0) as [[v | e'] c']; simpl in *;
        [discriminate |].
      intros [= <-]. apply Hk. reflexivity.
    - intros [name t] c0. rewrite bind_run.
      pose proof (context_top_same_stacks c0 t) as Ht.
      destruct (context_top t c0) as [[v | e'] c']; exact Ht.
    - exact Hc.
    - match goal with
      | |- context [comprehension ?f ?l c] =>
          destruct (comprehension f l c) as [[pairs | e'] c']
      end; simpl in *; [discriminate |].
      exists e'. split; [reflexivity |]. injection He as ->. exact Hke. }
  pose proof (get_args_same_stacks self ctx) as Hs1.
  destruct (get_args self ctx) as [[args | e] c1] eqn:Hargs; simpl in Hs1.
  - rewrite (bind_ret _ _ _ _ _ (in_context_run _ _ _ w _ Hargs)).
    assert (Hkw : Exists (fun t => stack_of c1 t = []) (call_kwargs self).*2).
    { apply Exists_app in Hex as [Hin | Hin].
      - destruct (Hargs_raise ctx Hin) as (e & He & _).
        rewrite Hargs in He. discriminate.
      - eapply Exists_impl; [exact Hin |].
        intros t Hempty. simpl in Hempty. rewrite Hs1. exact Hempty. }
    destruct (Hkw_raise c1 Hkw) as (e & He & Hke).
    pose proof (get_kwargs_same_stacks self c1) as Hs2.
    destruct (get_kwargs self c1) as [[kwargs | e'] c2] eqn:Hkwargs;
      simpl in *; [discriminate |].
    rewrite (bind_raise _ _ _ _ _ (in_context_run _ _ _ w _ Hkwargs)).
    simpl. injection He as ->.
    split; [exists e; split; [reflexivity | exact Hke] |].
    split; [reflexivity |].
    eapply same_stacks_trans; eassumption.
  - rewrite (bind_raise _ _ _ _ _ (in_context_run _ _ _ w _ Hargs)).
    simpl. split; [| split; [reflexivity | exact Hs1]].
    exists e. split; [reflexivity |].
    unfold get_args in Hargs.
    apply (comprehension_raises_kind
             (fun target => context_top target) (call_args self)
             (fun t c0 e0 => context_top_raises c0 t e0) ctx).
    rewrite Hargs. reflexivity.
Qed.

Lemma Call_evaluate_missing_argument_witness :
  (Call_evaluate example_call 0%nat (0, 3) 0 ∅
     (example_context, 7%nat)).2.2 = 7%nat.
Proof.
  assert (Hex : Exists (fun t => stack_of example_context t = [])
                  (call_args example_call ++ (call_kwargs example_call).*2))
    by (apply Exists_cons_hd; reflexivity).
  destruct (Call_evaluate_missing_argument example_call 0%nat (0, 3) 0 ∅
              example_context 7%nat Hex) as (_ & Hworld & _).
  exact Hworld.
Defined.

(** ** Split: failures, the splitter, and what the return value tells *)

(** X14: A [Split] over a split type that refuses to split raises its
    [ValueError] at the narrowing to the shard, whenever the slot has a
    value; the instruction and the context are as they were. *)
Theorem Split_evaluate_refusing_type (STOP_ITERATION : string)
    (thread : nat) (index_range : Z * Z) (batch_index : Z)
    (values : valuemap) (self : Split) (ctx : context) (v : pyval) :
  In (st_split (split_ty self))
     [SumSplit.split; GroupBySplit.split; SizeSplit.split] ->
  values !! split_target self = Some v ->
  exists msg,
    Split_evaluate STOP_ITERATION thread index_range batch_index values
      {| ss_self := self; ss_context := ctx |}
    = (Raise (ValueError msg), {| ss_self := self; ss_context := ctx |}).
Proof.
  intros Hin Hv. rewrite Split_evaluate_unfold. cbv zeta. rewrite Hv.
  simpl in Hin. destruct Hin as [<- | [<- | [<- | []]]];
    eexists; reflexivity.
Qed.

Lemma Split_evaluate_refusing_type_witness :
  exists msg,
    Split_evaluate "stop" 0%nat (0, 3) 0 example_values
      {| ss_self := Split_init 0
                      {| st_split := SumSplit.split;
                         st_elements := fun _ => Ret None;
                         st_to := fun value _ => Ret value |} CPU 2;
         ss_context := example_context |}
    = (Raise (ValueError msg),
       {| ss_self := Split_init 0
                       {| st_split := SumSplit.split;
                          st_elements := fun _ => Ret None;
                          st_to := fun value _ => Ret value |} CPU 2;
          ss_context := example_context |}).
Proof.
  apply (Split_evaluate_refusing_type "stop" 0%nat (0, 3) 0 example_values
           _ example_context (VFrame [1; 2; 3])).
  - left. reflexivity.
  - reflexivity.
Defined.

(** X15: An instruction that holds a generator does not look at the batch index:
    whatever index it is evaluated at, the outcome and the state after are
    the same. *)
Theorem Split_lazy_ignores_batch_index (STOP_ITERATION : string)
    (thread : nat) (index_range : Z * Z) (b b' : Z) (values : valuemap)
    (self : Split) (ctx : context) (g : generator) :
  split_splitter self = Some (SplitterGenerator g) ->
  Split_evaluate STOP_ITERATION thread index_range b values
    {| ss_self := self; ss_context := ctx |}
  = Split_evaluate STOP_ITERATION thread index_range b' values
      {| ss_self := self; ss_context := ctx |}.
Proof.
  intros Hsp. rewrite !Split_evaluate_unfold. cbv zeta.
  destruct (values !! split_target self) as [v |]; [| reflexivity].
  destruct (st_split (split_ty self) index_range.1 index_range.2
              (unwrap_operation v)) as [shard | e]; [| reflexivity].
  destruct (st_elements (split_ty self) shard) as [count | e];
    [| reflexivity].
  rewrite !bind_run, !split_produce_run, Hsp. reflexivity.
Qed.

Lemma Split_lazy_ignores_batch_index_witness :
  Split_evaluate "stop" 0%nat (0, 2) 0 example_arrays
    {| ss_self := with_splitter
                    (SplitterGenerator (generator_of [VInt 5; VInt 6]))
                    (Split_init 0 (lazy_elements "stop") CPU 1);
       ss_context := example_context |}
  = Split_evaluate "stop" 0%nat (0, 2) 9 example_arrays
      {| ss_self := with_splitter
                      (SplitterGenerator (generator_of [VInt 5; VInt 6]))
                      (Split_init 0 (lazy_elements "stop") CPU 1);
         ss_context := example_context |}.
Proof.
  apply (Split_lazy_ignores_batch_index "stop" 0%nat (0, 2) 0 9
           example_arrays _ example_context
           (generator_of [VInt 5; VInt 6])).
  reflexivity.
Defined.

Lemma context_append_cases (ctx : context) (k : Z) (v : pyval) :
  context_append k v ctx
  = (Ret tt, set_slot k (stack_of ctx k ++ [v]) ctx)
  \/ context_append k v ctx = (Raise (KeyError k), ctx).
Proof.
  unfold context_append, context_getitem, stack_of. rewrite bind_run.
  destruct (ctx_slots ctx !! k) as [stack |]; [left; reflexivity |].
  destruct (ctx_flavour ctx); [right; reflexivity |].
  left. unfold modify. simpl. rewrite set_slot_set_slot. reflexivity.
Qed.

(** What an evaluation did can be read off what it returned. *)
Lemma Split_evaluate_cases (STOP_ITERATION : string) (thread : nat)
    (index_range : Z * Z) (batch_index : Z) (values : valuemap)
    (self : Split) (ctx : context) (r : outcome pyval) (st' : split_state) :
  Split_evaluate STOP_ITERATION thread index_range batch_index values
    {| ss_self := self; ss_context := ctx |} = (r, st') ->
  match r with
  | Ret value =>
      (value = VNone
       /\ exists result,
            result <> VStr STOP_ITERATION
            /\ ss_context st'
               = set_slot (split_target self)
                   (stack_of ctx (split_target self) ++ [result]) ctx)
      \/ (value = VStr STOP_ITERATION /\ ss_context st' = ctx)
  | Raise e => ss_context st' = ctx
  end.
Proof.
  rewrite Split_evaluate_unfold. cbv zeta.
  destruct (values !! split_target self) as [v |];
    [| intros [= <- <-]; reflexivity].
  destruct (st_split (split_ty self) index_range.1 index_range.2
              (unwrap_operation v)) as [shard | e];
    [| intros [= <- <-]; reflexivity].
  destruct (st_elements (split_ty self) shard) as [count | e];
    [| intros [= <- <-]; reflexivity].
  rewrite bind_run.
  match goal with
  | |- context [split_produce self ?a ?b shard ?st] =>
      pose proof (split_produce_context self a b shard st) as Hctx;
      destruct (split_produce self a b shard st) as [[result | e] st1]
  end; simpl in Hctx; [| intros [= <- <-]; exact Hctx].
  unfold split_deliver.
  destruct (is_marker STOP_ITERATION result) eqn:Hm.
  - intros [= <- <-]. right. split; [reflexivity | exact Hctx].
  - rewrite bind_run. unfold on_context. rewrite zoom_run, Hctx.
    destruct (context_append_cases ctx (split_target self) result)
      as [Happ | Happ]; rewrite Happ; simpl.
    + intros [= <- <-]. left. split; [reflexivity |].
      exists result. split; [| reflexivity].
      intros ->. rewrite (proj2 (is_marker_spec _ _) eq_refl) in Hm.
      discriminate.
    + intros [= <- <-]. reflexivity.
Qed.

(** X16: The return value of [Split.evaluate] tells what it did: [None] means
    that exactly one value, which is not the marker, was appended to the
    stack of the target slot; the marker means that the context is
    untouched; and a raised exception leaves the context untouched too. *)
Theorem Split_evaluate_returns (STOP_ITERATION : string) (thread : nat)
    (index_range : Z * Z) (batch_index : Z) (values : valuemap)
    (self : Split) (ctx : context) (r : outcome pyval) (st' : split_state) :
  Split_evaluate STOP_ITERATION thread index_range batch_index values
    {| ss_self := self; ss_context := ctx |} = (r, st') ->
  match r with
  | Ret value =>
      (value = VNone
       /\ exists result,
            result <> VStr STOP_ITERATION
            /\ ss_context st'
               = set_slot (split_target self)
                   (stack_of ctx (split_target self) ++ [result]) ctx)
      \/ (value = VStr STOP_ITERATION /\ ss_context st' = ctx)
  | Raise e => ss_context st' = ctx
  end.
Proof. apply Split_evaluate_cases. Qed.

Lemma Split_evaluate_returns_witness :
  ss_context
    (Split_evaluate "stop" 0%nat (0, 3) 0 example_values
       {| ss_self := example_split;
          ss_context := {| ctx_flavour := PlainDict; ctx_slots := ∅ |} |}).2
  = {| ctx_flavour := PlainDict; ctx_slots := ∅ |}.
Proof.
  assert (Hrun :
            Split_evaluate "stop" 0%nat (0, 3) 0 example_values
              {| ss_self := example_split;
                 ss_context := {| ctx_flavour := PlainDict;
                                  ctx_slots := ∅ |} |}
            = (Raise (KeyError 0),
               (Split_evaluate "stop" 0%nat (0, 3) 0 example_values
                  {| ss_self := example_split;
                     ss_context := {| ctx_flavour := PlainDict;
                                      ctx_slots := ∅ |} |}).2))
    by reflexivity.
  exact (Split_evaluate_returns "stop" 0%nat (0, 3) 0 example_values
           example_split _ _ _ Hrun).
Defined.

(** X17: After a [Split] has returned [None], a [Call] whose one argument is
    the slot of the split reads the value that the split produced. *)
Theorem Split_then_get_args {W : Type} (STOP_ITERATION : string)
    (thread : nat) (index_range : Z * Z) (batch_index : Z)
    (values : valuemap) (self : Split) (ctx : context) (st' : split_state)
    (call : Call W) :
  Split_evaluate STOP_ITERATION thread index_range batch_index values
    {| ss_self := self; ss_context := ctx |} = (Ret VNone, st') ->
  call_args call = [split_target self] ->
  exists result,
    stack_of (ss_context st') (split_target self)
    = stack_of ctx (split_target self) ++ [result]
    /\ get_args call (ss_context st') = (Ret [result], ss_context st').
Proof.
  intros Hrun Hargs.
  apply Split_evaluate_cases in Hrun.
  destruct Hrun as [(_ & result & _ & Hctx) | [Hm _]]; [| discriminate].
  exists result. rewrite Hctx. split.
  - rewrite stack_of_set_slot, decide_True by reflexivity. reflexivity.
  - unfold get_args. rewrite Hargs. simpl.
    assert (Hne : slot_nonempty
                    (set_slot (split_target self)
                       (stack_of ctx (split_target self) ++ [result]) ctx)
                    (split_target self)).
    { exists (stack_of ctx (split_target self) ++ [result]).
      split; [apply lookup_insert_eq |].
      intros Hnil. apply app_eq_nil in Hnil as [_ Hnil]. discriminate. }
    destruct (context_top_nonempty _ _ Hne) as (top & Htop & Hrun).
    rewrite (bind_ret _ _ _ _ _ Hrun).
    unfold top_of in Htop.
    rewrite stack_of_set_slot, decide_True, last_snoc in Htop
      by reflexivity.
    injection Htop as <-. reflexivity.
Qed.

Lemma Split_then_get_args_witness :
  exists result,
    stack_of
      (ss_context
         (Split_evaluate "stop" 0%nat (0, 3) 0 example_values
            {| ss_self := example_split;
               ss_context := example_context |}).2)
      (split_target example_split)
    = stack_of example_context (split_target example_split) ++ [result]
    /\ get_args example_call
         (ss_context
            (Split_evaluate "stop" 0%nat (0, 3) 0 example_values
               {| ss_self := example_split;
                  ss_context := example_context |}).2)
       = (Ret [result],
          ss_context
            (Split_evaluate "stop" 0%nat (0, 3) 0 example_values
               {| ss_self := example_split;
                  ss_context := example_context |}).2).
Proof.
  assert (Hrun :
            Split_evaluate "stop" 0%nat (0, 3) 0 example_values
              {| ss_self := example_split; ss_context := example_context |}
            = (Ret VNone,
               (Split_evaluate "stop" 0%nat (0, 3) 0 example_values
                  {| ss_self := example_split;
                     ss_context := example_context |}).2))
    by reflexivity.
  assert (Hargs : call_args example_call = [split_target example_split])
    by reflexivity.
  exact (Split_then_get_args "stop" 0%nat (0, 3) 0 example_values
           example_split example_context _ example_call Hrun Hargs).
Defined.

Lemma bind_deliver_self (STOP_ITERATION : string) (self : Split)
    (c : M split_state pyval) (st : split_state) :
  ss_self ((c ≫= split_deliver STOP_ITERATION self) st).2 = ss_self (c st).2.
Proof.
  rewrite bind_run. destruct (c st) as [[result | e] st1]; simpl.
  - apply split_deliver_self.
  - reflexivity.
Qed.

Lemma Split_evaluate_keeps (STOP_ITERATION : string) (thread : nat)
    (index_range : Z * Z) (batch_index : Z) (values : valuemap)
    (self : Split) (ctx : context) :
  let self' :=
    ss_self (Split_evaluate STOP_ITERATION thread index_range batch_index
               values {| ss_self := self; ss_context := ctx |}).2 in
  split_target self' = split_target self
  /\ split_ty self' = split_ty self
  /\ split_backend self' = split_backend self
  /\ split_batch_size self' = split_batch_size self
  /\ (split_splitter self = Some SplitterMethod ->
      split_splitter self' = Some SplitterMethod)
  /\ (forall g, split_splitter self = Some (SplitterGenerator g) ->
                exists g', split_splitter self'
                           = Some (SplitterGenerator g')).
Proof.
  intros self'. subst self'. rewrite Split_evaluate_unfold. cbv zeta.
  assert (Hkeep :
            split_target self = split_target self
            /\ split_ty self = split_ty self
            /\ split_backend self = split_backend self
            /\ split_batch_size self = split_batch_size self
            /\ (split_splitter self = Some SplitterMethod ->
                split_splitter self = Some SplitterMethod)
            /\ (forall g, split_splitter self = Some (SplitterGenerator g) ->
                          exists g', split_splitter self
                                     = Some (SplitterGenerator g'))).
  { repeat match goal with |- _ /\ _ => split end;
      first [ reflexivity | assumption | discriminate
            | intros ? ?; discriminate
            | intros ? _; eexists; reflexivity
            | intros ? H0; eexists; exact H0
            | intros H0; exact H0 ]. }
  destruct (values !! split_target self) as [v |]; [| exact Hkeep].
  destruct (st_split (split_ty self) index_range.1 index_range.2
              (unwrap_operation v)) as [shard | e]; [| exact Hkeep].
  destruct (st_elements (split_ty self) shard) as [count | e];
    [| exact Hkeep].
  rewrite bind_deliver_self, split_produce_run.
  destruct (split_splitter self) as [[g |] |] eqn:Hsp.
  - rewrite next_splitter_run. cbn [snd ss_self].
    repeat match goal with |- _ /\ _ => split end;
      first [ reflexivity | assumption | discriminate
            | intros ? ?; discriminate
            | intros ? _; eexists; reflexivity
            | intros ? H0; eexists; exact H0
            | intros H0; exact H0 ].
  - cbn [snd ss_self]. rewrite Hsp.
    repeat match goal with |- _ /\ _ => split end;
      first [ reflexivity | assumption | discriminate
            | intros ? ?; discriminate
            | intros ? _; eexists; reflexivity
            | intros ? H0; eexists; exact H0
            | intros H0; exact H0 ].
  - assert (Hnone : forall self1,
               split_target self1 = split_target self ->
               split_ty self1 = split_ty self ->
               split_backend self1 = split_backend self ->
               split_batch_size self1 = split_batch_size self ->
               split_target self1 = split_target self
               /\ split_ty self1 = split_ty self
               /\ split_backend self1 = split_backend self
               /\ split_batch_size self1 = split_batch_size self
               /\ (None = Some SplitterMethod ->
                   split_splitter self1 = Some SplitterMethod)
               /\ (forall g, None = Some (SplitterGenerator g) ->
                             exists g', split_splitter self1
                                        = Some (SplitterGenerator g'))).
    { intros self1 H1 H2 H3 H4.
      repeat match goal with |- _ /\ _ => split end;
      first [ reflexivity | assumption | discriminate
            | intros ? ?; discriminate
            | intros ? _; eexists; reflexivity
            | intros ? H0; eexists; exact H0
            | intros H0; exact H0 ]. }
    destruct (st_split (split_ty self) _ _ shard) as [result | e];
      [| apply Hnone; reflexivity].
    destruct result; try rewrite next_splitter_run;
      apply Hnone; reflexivity.
Qed.

(** X18: Over any run of evaluations the instruction keeps its target, split
    type, backend and batch size, and a splitter once stored is never
    dropped or exchanged for one of the other kind. *)
Theorem Split_run_keeps (STOP_ITERATION : string) (thread : nat)
    (index_range : Z * Z) (values : valuemap) (batches : list Z)
    (self : Split) (ctx : context) :
  let self' :=
    ss_self (Split_run STOP_ITERATION thread index_range values batches
               {| ss_self := self; ss_context := ctx |}).2 in
  split_target self' = split_target self
  /\ split_ty self' = split_ty self
  /\ split_backend self' = split_backend self
  /\ split_batch_size self' = split_batch_size self
  /\ (split_splitter self = Some SplitterMethod ->
      split_splitter self' = Some SplitterMethod)
  /\ (forall g, split_splitter self = Some (SplitterGenerator g) ->
                exists g', split_splitter self'
                           = Some (SplitterGenerator g')).
Proof.
  revert self ctx. induction batches as [| b batches IH]; intros self ctx.
  - simpl. repeat match goal with |- _ /\ _ => split end;
      first [ reflexivity | assumption | discriminate
            | intros ? ?; discriminate
            | intros ? _; eexists; reflexivity
            | intros ? H0; eexists; exact H0
            | intros H0; exact H0 ].
  - simpl.
    pose proof (Split_evaluate_keeps STOP_ITERATION thread index_range b
                  values self ctx) as Hstep.
    destruct (Split_evaluate STOP_ITERATION thread index_range b values
                {| ss_self := self; ss_context := ctx |}) as [r [self1 ctx1]].
    cbv zeta in Hstep. simpl in Hstep.
    destruct Hstep as (Ht & Hty & Hb & Hs & Hm & Hg).
    specialize (IH self1 ctx1). cbv zeta in IH.
    destruct (Split_run STOP_ITERATION thread index_range values batches
                {| ss_self := self1; ss_context := ctx1 |}) as [rs st2].
    simpl in *.
    destruct IH as (Ht2 & Hty2 & Hb2 & Hs2 & Hm2 & Hg2).
    repeat match goal with |- _ /\ _ => split end; try congruence.
    + intros H. apply Hm2, Hm, H.
    + intros g H. destruct (Hg g H) as (g1 & H1). apply (Hg2 g1 H1).
Qed.

(** ** Split over a generator *)

Lemma Split_lazy_step (STOP_ITERATION : string) (thread : nat)
    (index_range : Z * Z) (b : Z) (values : valuemap) (self : Split)
    (ctx : context) (v0 shard : pyval) (count : option Z)
    (body : nat -> gen_step) (pos : nat) (v : pyval) :
  values !! split_target self = Some v0 ->
  st_split (split_ty self) index_range.1 index_range.2 (unwrap_operation v0)
  = Ret shard ->
  st_elements (split_ty self) shard = Ret count ->
  split_splitter self = Some (SplitterGenerator (Generator body pos false)) ->
  body pos = Yield v ->
  v <> VStr STOP_ITERATION ->
  slot_usable ctx (split_target self) ->
  Split_evaluate STOP_ITERATION thread index_range b values
    {| ss_self := self; ss_context := ctx |}
  = (Ret VNone,
     {| ss_self := with_splitter
                     (SplitterGenerator (Generator body (S pos) false)) self;
        ss_context := set_slot (split_target self)
                        (stack_of ctx (split_target self) ++ [v]) ctx |}).
Proof.
  intros Hv Hshard Hcount Hsp Hbody Hne Husable.
  rewrite (Split_evaluate_splitter STOP_ITERATION thread index_range b
             values self ctx v0 shard count Hv Hshard Hcount).
  cbv zeta. rewrite Hsp. simpl. rewrite Hbody. simpl.
  rewrite lift_bind_run, split_deliver_push;
    [reflexivity | exact Hne | exact Husable].
Qed.

(** X19: An instruction that holds a generator pushes what the generator yields,
    one value per evaluation and in the generator's order, whatever the
    batch indices are, as long as the values are not the marker. *)
Theorem Split_lazy_run (STOP_ITERATION : string) (thread : nat)
    (index_range : Z * Z) (values : valuemap) (self : Split) (ctx : context)
    (v0 shard : pyval) (count : option Z) (body : nat -> gen_step)
    (pos : nat) (items : list pyval) (batches : list Z) :
  values !! split_target self = Some v0 ->
  st_split (split_ty self) index_range.1 index_range.2 (unwrap_operation v0)
  = Ret shard ->
  st_elements (split_ty self) shard = Ret count ->
  split_splitter self = Some (SplitterGenerator (Generator body pos false)) ->
  (forall (i : nat) v, items !! i = Some v -> body (pos + i)%nat = Yield v) ->
  Forall (fun v => v <> VStr STOP_ITERATION) items ->
  length batches = length items ->
  slot_usable ctx (split_target self) ->
  let run := Split_run STOP_ITERATION thread index_range values batches
               {| ss_self := self; ss_context := ctx |} in
  run.1 = map (fun _ => Ret VNone) batches
  /\ stack_of (ss_context run.2) (split_target self)
     = stack_of ctx (split_target self) ++ items
  /\ split_splitter (ss_self run.2)
     = Some (SplitterGenerator
               (Generator body (pos + length items) false)).
Proof.
  intros Hv Hshard Hcount Hsp Hbody Hitems Hlen Husable.
  revert self ctx pos batches Hv Hshard Hcount Hsp Hbody Hlen Husable.
  induction Hitems as [| v items Hne _ IH];
    intros self ctx pos batches Hv Hshard Hcount Hsp Hbody Hlen Husable run.
  - destruct batches; [| discriminate]. subst run. simpl.
    rewrite app_nil_r, Nat.add_0_r. repeat split. exact Hsp.
  - destruct batches as [| b batches]; [discriminate |].
    subst run. simpl.
    assert (Hhead : body pos = Yield v).
    { rewrite <- (Nat.add_0_r pos). apply Hbody. reflexivity. }
    rewrite (Split_lazy_step STOP_ITERATION thread index_range b values self
               ctx v0 shard count body pos v Hv Hshard Hcount Hsp Hhead Hne
               Husable).
    specialize (IH (with_splitter
                      (SplitterGenerator (Generator body (S pos) false)) self)
                   (set_slot (split_target self)
                      (stack_of ctx (split_target self) ++ [v]) ctx)
                   (S pos) batches Hv Hshard Hcount eq_refl).
    assert (Htail : forall (i : nat) v', items !! i = Some v' ->
                                         body (S pos + i)%nat = Yield v').
    { intros i v' Hi. replace (S pos + i)%nat with (pos + S i)%nat by lia.
      apply Hbody. exact Hi. }
    specialize (IH Htail ltac:(simpl in Hlen; lia)
                  (slot_usable_set_slot _ _ _)).
    cbv zeta in IH.
    destruct (Split_run STOP_ITERATION thread index_range values batches _)
      as [rs st'].
    simpl in *. destruct IH as (Hrs & Hstack & Hmemo).
    split; [rewrite Hrs; reflexivity |]. split.
    + rewrite Hstack, stack_of_set_slot, decide_True by reflexivity.
      rewrite <- app_assoc. reflexivity.
    + rewrite Hmemo. do 3 f_equal. lia.
Qed.

Lemma Split_lazy_run_witness :
  stack_of
    (ss_context
       (Split_run "stop" 0%nat (0, 2) example_arrays [7; 7]
          {| ss_self := with_splitter
                          (SplitterGenerator
                             (generator_of [VInt 5; VInt 6]))
                          (Split_init 0 (lazy_elements "stop") CPU 1);
             ss_context := example_context |}).2) 0
  = [VInt 5; VInt 6].
Proof.
  assert (Hv : example_arrays !! 0 = Some (VArray [1; 2; 3])) by reflexivity.
  assert (Hbody : forall (i : nat) v,
             [VInt 5; VInt 6] !! i = Some v ->
             (fun n => match [VInt 5; VInt 6] !! n with
                       | Some v => Yield v
                       | None => Return
                       end) (0 + i)%nat = Yield v).
  { intros i v Hi. simpl. rewrite Hi. reflexivity. }
  assert (Hitems : Forall (fun v => v <> VStr "stop") [VInt 5; VInt 6])
    by (repeat constructor; discriminate).
  assert (Husable : slot_usable example_context 0)
    by (right; exists []; reflexivity).
  destruct (Split_lazy_run "stop" 0%nat (0, 2) example_arrays
              (with_splitter
                 (SplitterGenerator (generator_of [VInt 5; VInt 6]))
                 (Split_init 0 (lazy_elements "stop") CPU 1))
              example_context (VArray [1; 2; 3]) _ None _ 0%nat
              [VInt 5; VInt 6] [7; 7] Hv eq_refl eq_refl eq_refl Hbody
              Hitems eq_refl Husable) as (_ & Hstack & _).
  exact Hstack.
Defined.

(** X20: Once the generator held has finished, or finishes at this resumption,
    the evaluation raises [StopIteration]: it returns no marker and pushes
    nothing, and the generator stays finished. *)
Theorem Split_generator_finished (STOP_ITERATION : string) (thread : nat)
    (index_range : Z * Z) (b : Z) (values : valuemap) (self : Split)
    (ctx : context) (v0 shard : pyval) (count : option Z)
    (body : nat -> gen_step) (pos : nat) (finished : bool) :
  values !! split_target self = Some v0 ->
  st_split (split_ty self) index_range.1 index_range.2 (unwrap_operation v0)
  = Ret shard ->
  st_elements (split_ty self) shard = Ret count ->
  split_splitter self
  = Some (SplitterGenerator (Generator body pos finished)) ->
  finished = true \/ body pos = Return ->
  Split_evaluate STOP_ITERATION thread index_range b values
    {| ss_self := self; ss_context := ctx |}
  = (Raise StopIteration,
     {| ss_self := with_splitter
                     (SplitterGenerator (Generator body pos true)) self;
        ss_context := ctx |}).
Proof.
  intros Hv Hshard Hcount Hsp Hdone.
  rewrite (Split_evaluate_splitter STOP_ITERATION thread index_range b
             values self ctx v0 shard count Hv Hshard Hcount).
  cbv zeta. rewrite Hsp.
  destruct finished.
  - reflexivity.
  - destruct Hdone as [Hf | Hret]; [discriminate |].
    simpl. rewrite Hret. reflexivity.
Qed.

Lemma Split_generator_finished_witness :
  (Split_evaluate "stop" 0%nat (0, 2) 4 example_arrays
     {| ss_self := with_splitter (SplitterGenerator (generator_of []))
                     (Split_init 0 (lazy_elements "stop") CPU 1);
        ss_context := example_context |}).1
  = Raise StopIteration.
Proof.
  assert (Hv : example_arrays !! 0 = Some (VArray [1; 2; 3])) by reflexivity.
  rewrite (Split_generator_finished "stop" 0%nat (0, 2) 4 example_arrays
             (with_splitter (SplitterGenerator (generator_of []))
                (Split_init 0 (lazy_elements "stop") CPU 1))
             example_context (VArray [1; 2; 3]) _ None _ 0%nat false
             Hv eq_refl eq_refl eq_refl (or_intror eq_refl)).
  reflexivity.
Defined.

(** ** Constants *)

(** X21: A constant under [DataFrameSplit] (anything but a frame), which is
    neither the marker string nor a generator object, is broadcast: every
    evaluation, at whatever batch index, returns [None] and pushes the
    constant itself. *)
Theorem Split_constant_broadcast (STOP_ITERATION : string) (thread : nat)
    (index_range : Z * Z) (values : valuemap) (target : Z)
    (to : pyval -> Backend -> outcome pyval) (backend : Backend) (s : Z)
    (v c : pyval) (ctx : context) (batches : list Z) :
  values !! target = Some v ->
  unwrap_operation v = c ->
  (forall rows, c <> VFrame rows) ->
  (forall g, c <> VGenerator g) ->
  c <> VStr STOP_ITERATION ->
  slot_usable ctx target ->
  let run := Split_run STOP_ITERATION thread index_range values batches
               {| ss_self := Split_init target (DataFrameSplit.ty to)
                               backend s;
                  ss_context := ctx |} in
  run.1 = map (fun _ => Ret VNone) batches
  /\ stack_of (ss_context run.2) target
     = stack_of ctx target ++ map (fun _ => c) batches.
Proof.
  intros Hv Hc Hframe Hgen Hmarker Husable.
  assert (Hsplit : forall start en, DataFrameSplit.split start en c = Ret c).
  { intros start en. destruct c; try reflexivity.
    exfalso. eapply Hframe. reflexivity. }
  assert (Helements : DataFrameSplit.elements c = Ret None).
  { destruct c; try reflexivity. exfalso. eapply Hframe. reflexivity. }
  assert (Hstep : forall (self : Split) ctx0 b,
             split_ty self = DataFrameSplit.ty to ->
             split_target self = target ->
             (forall g, split_splitter self <> Some (SplitterGenerator g)) ->
             slot_usable ctx0 target ->
             Split_evaluate STOP_ITERATION thread index_range b values
               {| ss_self := self; ss_context := ctx0 |}
             = (Ret VNone,
                {| ss_self := match split_splitter self with
                              | None => with_splitter SplitterMethod self
                              | Some _ => self
                              end;
                   ss_context := set_slot target (stack_of ctx0 target ++ [c])
                                   ctx0 |})).
  { intros self ctx0 b Hty Ht Hnogen Hu.
    assert (Hv' : values !! split_target self = Some v)
      by (rewrite Ht; exact Hv).
    assert (Hshard : st_split (split_ty self) index_range.1 index_range.2
                       (unwrap_operation v) = Ret c).
    { rewrite Hty, Hc. apply Hsplit. }
    assert (Hcount : st_elements (split_ty self) c = Ret None).
    { rewrite Hty. exact Helements. }
    rewrite (Split_evaluate_splitter STOP_ITERATION thread index_range b
               values self ctx0 v c None Hv' Hshard Hcount).
    cbv zeta. rewrite Hty.
    change (st_split (DataFrameSplit.ty to)) with DataFrameSplit.split.
    rewrite Hsplit.
    destruct (split_splitter self) as [[g |] |] eqn:Hsp.
    - exfalso. apply (Hnogen g). first [exact Hsp | reflexivity].
    - rewrite lift_bind_run, split_deliver_push, Ht;
        [reflexivity | exact Hmarker | rewrite Ht; exact Hu].
    - destruct c; try (exfalso; eapply Hgen; reflexivity);
        rewrite lift_bind_run, split_deliver_push, Ht;
        first [reflexivity | exact Hmarker | rewrite Ht; exact Hu]. }
  assert (Hrun : forall batches0 (self : Split) ctx0,
             split_ty self = DataFrameSplit.ty to ->
             split_target self = target ->
             (forall g, split_splitter self <> Some (SplitterGenerator g)) ->
             slot_usable ctx0 target ->
             let run0 := Split_run STOP_ITERATION thread index_range values
                           batches0
                           {| ss_self := self; ss_context := ctx0 |} in
             run0.1 = map (fun _ => Ret VNone) batches0
             /\ stack_of (ss_context run0.2) target
                = stack_of ctx0 target ++ map (fun _ => c) batches0).
  { induction batches0 as [| b batches0 IH];
      intros self ctx0 Hty Ht Hnogen Hu run0.
    - subst run0. simpl. rewrite app_nil_r. split; reflexivity.
    - subst run0. simpl. rewrite (Hstep self ctx0 b Hty Ht Hnogen Hu).
      set (self' := match split_splitter self with
                    | None => with_splitter SplitterMethod self
                    | Some _ => self
                    end).
      assert (Hself : split_ty self' = DataFrameSplit.ty to
                      /\ split_target self' = target
                      /\ forall g, split_splitter self'
                                   <> Some (SplitterGenerator g)).
      { subst self'. destruct (split_splitter self) as [[g |] |] eqn:Hsp.
        - exfalso. apply (Hnogen g). first [exact Hsp | reflexivity].
        - repeat match goal with |- _ /\ _ => split end;
            first [assumption | intros g; rewrite ?Hsp; discriminate].
        - repeat match goal with |- _ /\ _ => split end;
            first [assumption | intros g; simpl; discriminate]. }
      destruct Hself as (Hty' & Ht' & Hnogen').
      specialize (IH self' (set_slot target (stack_of ctx0 target ++ [c])
                              ctx0)
                     Hty' Ht' Hnogen' (slot_usable_set_slot _ _ _)).
      cbv zeta in IH.
      destruct (Split_run STOP_ITERATION thread index_range values batches0
                  _) as [rs st'].
      simpl in *. destruct IH as [Hrs Hstack].
      split; [rewrite Hrs; reflexivity |].
      rewrite Hstack, stack_of_set_slot, decide_True by reflexivity.
      rewrite <- app_assoc. reflexivity. }
  apply Hrun; try reflexivity; try assumption.
  intros g. discriminate.
Qed.

Lemma Split_constant_broadcast_witness :
  stack_of
    (ss_context
       (Split_run "stop" 0%nat (0, 3) {[0 := VInt 42]} [0; 1; 5]
          {| ss_self := example_split; ss_context := example_context |}).2)
    0
  = [VInt 42; VInt 42; VInt 42].
Proof.
  assert (Hv : ({[0 := VInt 42]} : valuemap) !! 0 = Some (VInt 42))
    by reflexivity.
  assert (Hframe : forall rows, VInt 42 <> VFrame rows)
    by (intros rows; discriminate).
  assert (Hgen : forall g, VInt 42 <> VGenerator g)
    by (intros g; discriminate).
  assert (Hmarker : VInt 42 <> VStr "stop") by discriminate.
  assert (Husable : slot_usable example_context 0)
    by (right; exists []; reflexivity).
  exact (proj2 (Split_constant_broadcast "stop" 0%nat (0, 3)
                  {[0 := VInt 42]} 0
                  (to_device_only DataFrameSplit.to_device) CPU 2
                  (VInt 42) (VInt 42) example_context [0; 1; 5]
                  Hv eq_refl Hframe Hgen Hmarker Husable)).
Defined.

(** ** The order in which partial results arrive *)

Lemma sorted_same_elements (l1 l2 : list Z) :
  StronglySorted Z.lt l1 ->
  StronglySorted Z.lt l2 ->
  (forall x, x ∈ l1 <-> x ∈ l2) ->
  l1 = l2.
Proof.
  intros Hs1. revert l2.
  induction Hs1 as [| a t1 Hs1 IH Ha]; intros l2 Hs2 Hsame.
  - destruct l2 as [| b t2]; [reflexivity |].
    exfalso. apply (elem_of_nil b). apply Hsame. left.
  - destruct Hs2 as [| b t2 Hs2 Hb].
    + exfalso. apply (elem_of_nil a). apply Hsame. left.
    + rewrite List.Forall_forall in Ha, Hb.
      assert (Hab : a = b).
      { assert (Ha2 : a ∈ b :: t2) by (apply Hsame; left).
        assert (Hb1 : b ∈ a :: t1) by (apply Hsame; left).
        apply elem_of_cons in Ha2 as [-> | Ha2]; [reflexivity |].
        apply elem_of_cons in Hb1 as [-> | Hb1]; [reflexivity |].
        apply list_elem_of_In in Ha2, Hb1.
        specialize (Ha _ Hb1). specialize (Hb _ Ha2). lia. }
      subst b. f_equal. apply IH; [exact Hs2 |].
      intros x. split; intros Hx.
      * assert (Hx2 : x ∈ a :: t2) by (apply Hsame; right; exact Hx).
        apply elem_of_cons in Hx2 as [-> | Hx2]; [| exact Hx2].
        apply list_elem_of_In in Hx. specialize (Ha _ Hx). lia.
      * assert (Hx1 : x ∈ a :: t1) by (apply Hsame; right; exact Hx).
        apply elem_of_cons in Hx1 as [-> | Hx1]; [| exact Hx1].
        apply list_elem_of_In in Hx. specialize (Hb _ Hx). lia.
Qed.

Lemma UniqueSplit_combine_np_unique (values : list (list Z)) :
  UniqueSplit.combine values = np_unique (np_concatenate values).
Proof. destruct values; reflexivity. Qed.

(** X22: [UniqueSplit.combine] does not depend on the order in which the
    partial arrays arrive, nor on how the values are spread over them: two
    lists of partial arrays that hold the same values combine to the same
    array. *)
Theorem UniqueSplit_combine_order (values values' : list (list Z)) :
  (forall x, x ∈ concat values <-> x ∈ concat values') ->
  UniqueSplit.combine values = UniqueSplit.combine values'.
Proof.
  intros Hsame. rewrite !UniqueSplit_combine_np_unique.
  apply sorted_same_elements; try apply np_unique_sorted.
  intros x. rewrite !elem_of_np_unique. apply Hsame.
Qed.

Lemma UniqueSplit_combine_order_witness :
  UniqueSplit.combine [[3; 1]; [2; 3]] = UniqueSplit.combine [[2]; [3; 1; 1]].
Proof.
  apply UniqueSplit_combine_order.
  intros x. simpl. rewrite !elem_of_cons, !elem_of_nil. tauto.
Defined.

(** X23: On [int64] partial sums [SumSplit.combine] does not depend on the
    order in which they arrive, also where the sum wraps around. *)
Theorem SumSplit_combine_order (values values' : list Z) :
  Permutation values values' ->
  SumSplit.combine values = SumSplit.combine values'.
Proof.
  intros Hperm. unfold SumSplit.combine.
  rewrite !py_sum_exact. f_equal.
  induction Hperm; cbn [foldr]; lia.
Qed.

Lemma SumSplit_combine_order_witness :
  SumSplit.combine [9223372036854775807; 2; 3]
  = SumSplit.combine [3; 9223372036854775807; 2].
Proof.
  apply SumSplit_combine_order.
  symmetry. apply (Permutation_cons_append [9223372036854775807; 2] 3).
Defined.

(** ** Call: what removing the target changes *)

(** X24: Removing the target changes nothing about the call itself: from the
    same context and world, the instruction without target reads the same
    arguments, calls the function in the same way and leaves the same
    world; it returns what the instruction with target returns, except
    where that one fails to push for want of the target's stack. *)
Theorem remove_target_keeps_effect {W : Type} (self : Call W)
    (thread : nat) (index_range : Z * Z) (batch_index : Z)
    (values : valuemap) (ctx : context) (w : W) :
  let run :=
    Call_evaluate self thread index_range batch_index values (ctx, w) in
  let run' :=
    Call_evaluate (remove_target self) thread index_range batch_index values
      (ctx, w) in
  run'.2.2 = run.2.2
  /\ (run'.1 = run.1
      \/ exists t, call_target self = Some t
                   /\ run.1 = Raise (KeyError t) /\ run'.1 = Ret VNone).
Proof.
  intros run run'. subst run run'. unfold Call_evaluate.
  change (get_args (remove_target self)) with (get_args self).
  change (get_kwargs (remove_target self)) with (get_kwargs self).
  change (call_func (remove_target self)) with (call_func self).
  change (call_target (remove_target self)) with (@None Z).
  rewrite !(bind_run (in_context (get_args self))).
  destruct (in_context (get_args self) (ctx, w)) as [[args | e] st1];
    [| split; [reflexivity | left; reflexivity]].
  rewrite !(bind_run (in_context (get_kwargs self))).
  destruct (in_context (get_kwargs self) st1) as [[kwargs | e] st2];
    [| split; [reflexivity | left; reflexivity]].
  rewrite !(bind_run (in_world (call_func self args kwargs))).
  destruct (in_world (call_func self args kwargs) st2)
    as [[result | e] [ctx3 w3]];
    [| split; [reflexivity | left; reflexivity]].
  destruct (call_target self) as [t |];
    [| split; [reflexivity | left; reflexivity]].
  rewrite bind_run. unfold in_context. rewrite zoom_run. simpl.
  destruct (context_append_cases ctx3 t result) as [Happ | Happ];
    rewrite Happ; simpl.
  - split; [reflexivity | left; reflexivity].
  - split; [reflexivity |]. right. exists t. repeat split.
Qed.
